(** * Container tools of the arista.cvp collection (module_utils/container_tools.py)

    A shallow embedding of [ContainerInput] (the topology orderer and its
    getters) and of [CvContainerTools] (the glue over the CloudVision
    client).  Python values are embedded as [pyval]; dicts are association
    lists, in insertion order, as Python 3.7+ iterates them.  Exceptions are
    the [exc] constructors; the remote client is a function from the call
    history to the reply of the next call. *)

From Stdlib Require Import Ascii String List Bool ZArith Lia.
Import ListNotations.
Open Scope string_scope.

(** ** Python values *)

Set Warnings "-register-all".

Inductive pyval : Type :=
| PNone
| PBool (b : bool)
| PInt (z : Z)
| PStr (s : string)
| PList (l : list pyval)
| PDict (d : list (string * pyval)).

(** Exceptions the code can raise or catch. *)
Inductive exc : Type :=
| CvpApiError
| CvpRequestError
| TypeError
| KeyError
| AttributeError
| UnboundLocalError.

Inductive res (A : Type) : Type :=
| Ok (a : A)
| Raise (e : exc).
Arguments Ok {A} a.
Arguments Raise {A} e.

Definition res_bind {A B} (r : res A) (k : A -> res B) : res B :=
  match r with Ok a => k a | Raise e => Raise e end.

Notation "x <-? r ;; k" := (res_bind r (fun x => k))
  (at level 61, r at next level, right associativity).

Fixpoint dict_lookup (k : string) (d : list (string * pyval)) : option pyval :=
  match d with
  | [] => None
  | (k', v) :: d' => if String.eqb k k' then Some v else dict_lookup k d'
  end.

Definition is_none (v : pyval) : bool :=
  match v with PNone => true | _ => false end.

(** [k in v] for a string [k]. *)
Definition py_in (k : string) (v : pyval) : res bool :=
  match v with
  | PDict d => Ok (match dict_lookup k d with Some _ => true | None => false end)
  | PList l => Ok (existsb (fun x => match x with PStr s => String.eqb s k | _ => false end) l)
  | PStr s => Ok (match String.index 0 k s with Some _ => true | None => false end)
  | _ => Raise TypeError
  end.

(** [v[k]] for a string key [k]. *)
Definition py_getitem (v : pyval) (k : string) : res pyval :=
  match v with
  | PDict d => match dict_lookup k d with Some x => Ok x | None => Raise KeyError end
  | _ => Raise TypeError
  end.

(** [v.get(k)] *)
Definition py_get (v : pyval) (k : string) : res pyval :=
  match v with
  | PDict d => match dict_lookup k d with Some x => Ok x | None => Ok PNone end
  | _ => Raise AttributeError
  end.

(** [v == s] for a string literal [s]. *)
Definition py_eq_str (v : pyval) (s : string) : bool :=
  match v with PStr s' => String.eqb s' s | _ => false end.

(** [v == z] for an integer literal [z] ([True == 1] in Python). *)
Definition py_eq_int (v : pyval) (z : Z) : bool :=
  match v with
  | PInt z' => Z.eqb z' z
  | PBool b => Z.eqb (if b then 1 else 0)%Z z
  | _ => false
  end.

Definition py_truthy (v : pyval) : bool :=
  match v with
  | PNone => false
  | PBool b => b
  | PInt z => negb (Z.eqb z 0)
  | PStr s => negb (String.eqb s "")
  | PList l => match l with [] => false | _ => true end
  | PDict d => match d with [] => false | _ => true end
  end.

(** [sep.join(l)]: every element must be a [str]. *)
Fixpoint py_join (sep : string) (l : list pyval) : res string :=
  match l with
  | [] => Ok ""
  | [PStr s] => Ok s
  | PStr s :: l' => r <-? py_join sep l' ;; Ok (s ++ sep ++ r)
  | _ :: _ => Raise TypeError
  end.

(** ** ContainerInput *)

Module ContainerInput.

Record t : Type := {
  _topology : list (string * pyval);
  _parent_field : string;
  _root_name : string
}.

(** [ContainerInput(user_topology, container_root_name='Tenant')] *)
Definition init (user_topology : list (string * pyval))
    (container_root_name : string) : t :=
  {| _topology := user_topology;
     _parent_field := "parent_container";
     _root_name := container_root_name |}.

Definition keys (ci : t) : list string := map fst (_topology ci).

(** [self._topology[container]] *)
Definition topo_getitem (ci : t) (container : string) : res pyval :=
  match dict_lookup container (_topology ci) with
  | Some v => Ok v
  | None => Raise KeyError
  end.

Definition _get_container_data (ci : t) (container_name key_name : string)
    : res pyval :=
  match dict_lookup container_name (_topology ci) with
  | Some rec =>
      b <-? py_in key_name rec ;;
      if b then py_getitem rec key_name else Ok PNone
  | None => Ok PNone
  end.

(** [self._topology[container][self._parent_field]] *)
Definition parent_of (ci : t) (container : string) : res pyval :=
  rec <-? topo_getitem ci container ;; py_getitem rec (_parent_field ci).

(** One pass of the [for container in self._topology] loop. *)
Fixpoint scan (ci : t) (containers : list string) (result_list : list string)
    : res (list string) :=
  match containers with
  | [] => Ok result_list
  | container :: rest =>
      p1 <-? parent_of ci container ;;
      let r1 := if py_eq_str p1 (_root_name ci)
                then (result_list ++ [container])%list else result_list in
      p2 <-? parent_of ci container ;;
      let r2 := if existsb (fun element => py_eq_str p2 element) r1
                   && negb (existsb (String.eqb container) r1)
                then (r1 ++ [container])%list else r1 in
      scan ci rest r2
  end.

(** The [while len(result_list) < len(self._topology)] loop, run for at most
    [fuel] passes: [None] means the loop is still running after [fuel]
    passes. *)
Fixpoint ordered_loop (ci : t) (fuel : nat) (result_list : list string)
    : option (res (list string)) :=
  if Nat.ltb (length result_list) (length (_topology ci)) then
    match fuel with
    | O => None
    | S fuel' =>
        match scan ci (keys ci) result_list with
        | Ok r => ordered_loop ci fuel' r
        | Raise e => Some (Raise e)
        end
    end
  else Some (Ok result_list).

Definition ordered_list_containers (ci : t) (fuel : nat)
    : option (res (list string)) :=
  ordered_loop ci fuel [].

Definition get_parent (ci : t) (container_name : string)
    (parent_key : string) : res pyval :=
  _get_container_data ci container_name parent_key.

Definition get_configlets (ci : t) (container_name : string)
    (configlet_key : string) : res pyval :=
  _get_container_data ci container_name configlet_key.

Definition has_configlets (ci : t) (container_name : string)
    (configlet_key : string) : res bool :=
  v <-? _get_container_data ci container_name configlet_key ;;
  if is_none v then Ok false else Ok true.

(** Invariant of a run of the orderer: only keys are placed, [d] is not. *)
Definition placed_ok (ci : t) (d : string) (r : list string) : Prop :=
  (forall x, In x r -> In x (keys ci)) /\ ~ In d r.

(** Every entry of [r] has a readable parent that is the root name or an
    entry placed before it. *)
Definition parents_first (ci : t) (r : list string) : Prop :=
  forall i x, nth_error r i = Some x ->
    exists p, parent_of ci x = Ok p
      /\ (py_eq_str p (_root_name ci) = true
          \/ exists j e, j < i /\ nth_error r j = Some e /\ py_eq_str p e = true).

(** No container whose parent is not the root name occurs twice in [r]. *)
Definition nonroot_once (ci : t) (r : list string) : Prop :=
  forall x p, parent_of ci x = Ok p -> py_eq_str p (_root_name ci) = false ->
    count_occ string_dec r x <= 1.

End ContainerInput.

(** ** CvContainerTools *)

Module CvContainerTools.

Definition FIELD_COUNT_DEVICES := "childNetElementCount".
Definition FIELD_COUNT_CONTAINERS := "childContainerCount".
Definition FIELD_PARENT_ID := "parentContainerId".
Definition FIELD_NAME := "name".
Definition FIELD_KEY := "key".
Definition FIELD_TOPOLOGY := "topology".

(** Calls on [self._cvp_client.api]. *)
Inductive call : Type :=
| GetContainerByName (name : string)
| FilterTopology (node_id : pyval)
| GetConfigletByName (name : string)
| AddContainer (container_name : string) (parent_key : pyval)
    (parent_name : string)
| DeleteContainer (container_name : string) (container_key parent_key : pyval)
    (parent_name : string)
| ApplyConfigletsToContainer (app_name : string) (new_configlets : list pyval)
    (container : pyval) (create_task : bool)
| RemoveConfigletsFromContainer (app_name : string)
    (del_configlets : list pyval) (container : pyval) (create_task : bool).

(** Calls that change the state of CloudVision. *)
Definition mutating (c : call) : bool :=
  match c with
  | AddContainer _ _ _ | DeleteContainer _ _ _ _
  | ApplyConfigletsToContainer _ _ _ _ | RemoveConfigletsFromContainer _ _ _ _ => true
  | _ => false
  end.

Definition is_delete (c : call) : bool :=
  match c with DeleteContainer _ _ _ _ => true | _ => false end.

Definition is_add (c : call) : bool :=
  match c with AddContainer _ _ _ => true | _ => false end.

(** The calls issued so far, newest first. *)
Definition history := list call.

(** A CloudVision server: the reply to a call, given the calls before it
    ([Raise CvpApiError] for an API error). *)
Definition registry := history -> call -> res pyval.

Definition M (A : Type) : Type := history -> res A * history.

Definition ret {A} (a : A) : M A := fun h => (Ok a, h).

Definition bind {A B} (m : M A) (k : A -> M B) : M B :=
  fun h => match m h with
           | (Ok a, h') => k a h'
           | (Raise e, h') => (Raise e, h')
           end.

Definition lift {A} (r : res A) : M A := fun h => (r, h).

Definition raise {A} (e : exc) : M A := fun h => (Raise e, h).

Notation "x <- m ;; k" := (bind m (fun x => k))
  (at level 61, m at next level, right associativity).

(** Modelled from the spec: [CvApiResult] of module_utils/response.py, which
    is not part of the sources.  The spec's ChangeResult: a target name, a
    success flag and a changed flag (both false until set), the task ids
    returned by CloudVision and a count of changes. *)
Record CvApiResult : Type := {
  name : string;
  success : bool;
  changed : bool;
  taskIds : pyval;
  count : nat
}.

Definition new_result (action_name : string) : CvApiResult :=
  {| name := action_name; success := false; changed := false;
     taskIds := PList []; count := 0 |}.

Definition set_name (n : string) (r : CvApiResult) : CvApiResult :=
  {| name := n; success := success r; changed := changed r;
     taskIds := taskIds r; count := count r |}.
Definition set_success (b : bool) (r : CvApiResult) : CvApiResult :=
  {| name := name r; success := b; changed := changed r;
     taskIds := taskIds r; count := count r |}.
Definition set_changed (b : bool) (r : CvApiResult) : CvApiResult :=
  {| name := name r; success := success r; changed := b;
     taskIds := taskIds r; count := count r |}.
Definition set_taskIds (t : pyval) (r : CvApiResult) : CvApiResult :=
  {| name := name r; success := success r; changed := changed r;
     taskIds := t; count := count r |}.
Definition incr_count (r : CvApiResult) : CvApiResult :=
  {| name := name r; success := success r; changed := changed r;
     taskIds := taskIds r; count := S (count r) |}.

Definition standard_keys : list string :=
  [FIELD_KEY; FIELD_NAME; FIELD_COUNT_CONTAINERS; FIELD_COUNT_DEVICES;
   FIELD_PARENT_ID].

Definition std_filter (d : list (string * pyval)) : list (string * pyval) :=
  filter (fun kv => existsb (String.eqb (fst kv)) standard_keys) d.

Definition _standard_output (source : pyval) : res pyval :=
  match source with
  | PDict d => Ok (PDict (std_filter d))
  | _ => Raise AttributeError
  end.

(** [[entry.get('name') for entry in configlets if entry.get('name')]] *)
Fixpoint configlet_names (configlets : list pyval) : res (list pyval) :=
  match configlets with
  | [] => Ok []
  | entry :: rest =>
      n <-? py_get entry "name" ;;
      ns <-? configlet_names rest ;;
      Ok (if py_truthy n then n :: ns else ns)
  end.

(** [container['name'] + ':' + ':'.join(configlet_names)] *)
Definition action_name (container : pyval) (names : list pyval) : res string :=
  cn <-? py_getitem container "name" ;;
  match cn with
  | PStr s => j <-? py_join ":" names ;; Ok (s ++ ":" ++ j)
  | _ => Raise TypeError
  end.

Section Tools.

Variable check_mode : bool.
Variable respond : registry.

Definition api (c : call) : M pyval := fun h => (respond h c, c :: h).

(** [try: ... except CvpApiError: ...]: [None] when a [CvpApiError] was
    caught; any other exception goes through. *)
Definition try_api {A} (m : M A) : M (option A) :=
  fun h => match m h with
           | (Ok a, h') => (Ok (Some a), h')
           | (Raise CvpApiError, h') => (Ok None, h')
           | (Raise e, h') => (Raise e, h')
           end.

(** [resp['data']['status'] == "success"] *)
Definition status_success (resp : pyval) : M bool :=
  d <- lift (py_getitem resp "data") ;;
  st <- lift (py_getitem d "status") ;;
  ret (py_eq_str st "success").

(** [resp['data']['taskIds']] *)
Definition task_ids (resp : pyval) : M pyval :=
  d <- lift (py_getitem resp "data") ;;
  lift (py_getitem d "taskIds").

(** [if 'data' in resp and resp['data']['status'] == 'success': ...] *)
Definition configlet_response (resp : pyval) (cr : CvApiResult)
    : M CvApiResult :=
  b <- lift (py_in "data" resp) ;;
  if b then
    ok <- status_success resp ;;
    if ok then
      tids <- task_ids resp ;;
      ret (set_success true (set_taskIds tids cr))
    else ret cr
  else ret cr.

Definition _get_configlet_info (configlet_name : string) : M pyval :=
  data <- api (GetConfigletByName configlet_name) ;;
  if negb (is_none data) then lift (_standard_output data) else ret PNone.

Definition _configlet_add (container : pyval) (configlets : list pyval)
    (save_topology : bool) : M CvApiResult :=
  let change_response := new_result "Undefined" in
  if negb (is_none container) then
    names <- lift (configlet_names configlets) ;;
    nm <- lift (action_name container names) ;;
    let change_response := set_name nm change_response in
    if check_mode then
      ret (set_taskIds (PList [PStr "check_mode"])
             (set_success true change_response))
    else
      r <- try_api (api (ApplyConfigletsToContainer "ansible_cv_container"
                           configlets container save_topology)) ;;
      match r with
      | None => ret change_response
      | Some resp => configlet_response resp change_response
      end
  else ret change_response.

Definition _configlet_del (container : pyval) (configlets : list pyval)
    (save_topology : bool) : M CvApiResult :=
  names <- lift (configlet_names configlets) ;;
  nm <- lift (action_name container names) ;;
  let change_response := new_result nm in
  if check_mode then
    ret (set_taskIds (PList [PStr "check_mode"])
           (set_success true change_response))
  else
    r <- try_api (api (RemoveConfigletsFromContainer "ansible_cv_container"
                         configlets container save_topology)) ;;
    match r with
    | None => ret change_response
    | Some resp => configlet_response resp change_response
    end.

Definition get_container_info (container_name : string) : M pyval :=
  cv_response <- api (GetContainerByName container_name) ;;
  b <- (if negb (is_none cv_response)
        then lift (py_in FIELD_KEY cv_response) else ret false) ;;
  if b then
    r <- api (GetContainerByName container_name) ;;
    container_id <- lift (py_getitem r FIELD_KEY) ;;
    ft <- api (FilterTopology container_id) ;;
    container_facts <- lift (py_getitem ft FIELD_TOPOLOGY) ;;
    lift (_standard_output container_facts)
  else ret PNone.

Definition get_container_id (container_name : string) : M pyval :=
  container_info <- api (GetContainerByName container_name) ;;
  b <- lift (py_in FIELD_KEY container_info) ;;
  if b then lift (py_getitem container_info FIELD_KEY) else ret PNone.

Definition is_empty (container_name : string) : M bool :=
  container <- get_container_info container_name ;;
  b1 <- lift (py_in FIELD_COUNT_CONTAINERS container) ;;
  b <- (if b1 then lift (py_in FIELD_COUNT_DEVICES container) else ret false) ;;
  if b then
    v1 <- lift (py_getitem container FIELD_COUNT_CONTAINERS) ;;
    if py_eq_int v1 0 then
      v2 <- lift (py_getitem container FIELD_COUNT_DEVICES) ;;
      if py_eq_int v2 0 then ret true else ret false
    else ret false
  else ret false.

(** When [get_container_by_name] raises [CvpApiError], the handler only
    logs, and [cv_data] is read unbound. *)
Definition is_container_exists (container_name : string) : M bool :=
  r <- try_api (api (GetContainerByName container_name)) ;;
  match r with
  | None => raise UnboundLocalError
  | Some cv_data => ret (negb (is_none cv_data))
  end.

Definition create_container (container parent : string) : M CvApiResult :=
  let change_result := new_result container in
  pe <- is_container_exists parent ;;
  if pe then
    pr <- api (GetContainerByName parent) ;;
    parent_id <- lift (py_getitem pr FIELD_KEY) ;;
    ce <- is_container_exists container ;;
    if negb ce then
      if check_mode then
        ret (set_changed true (set_success true change_result))
      else
        r <- try_api (api (AddContainer container parent_id parent)) ;;
        match r with
        | None => ret change_result
        | Some resp =>
            ok <- status_success resp ;;
            if ok then
              tids <- task_ids resp ;;
              ret (incr_count (set_success true (set_taskIds tids change_result)))
            else ret change_result
        end
    else ret change_result
  else ret change_result.

Definition delete_container (container parent : string) : M CvApiResult :=
  let change_result := new_result container in
  e <- is_container_exists container ;;
  b <- (if e then is_empty container else ret false) ;;
  if b then
    parent_id <- get_container_id parent ;;
    container_id <- get_container_id container ;;
    if check_mode then ret (set_success true change_result)
    else
      r <- try_api (api (DeleteContainer container container_id parent_id
                                         parent)) ;;
      match r with
      | None => ret change_result
      | Some resp =>
          ok <- status_success resp ;;
          if ok then
            tids <- task_ids resp ;;
            ret (set_success true (set_taskIds tids change_result))
          else ret change_result
      end
  else ret change_result.

(** The [for configlet in configlets] loop of attach and detach. *)
Fixpoint collect_configlets (configlets : list string) (acc : list pyval)
    : M (list pyval) :=
  match configlets with
  | [] => ret acc
  | configlet :: rest =>
      data <- _get_configlet_info configlet ;;
      collect_configlets rest
        (if negb (is_none data) then (acc ++ [data])%list else acc)
  end.

(** [strict] is accepted and unused ("NOT SUPPORTED"). *)
Definition configlets_attach (container : string) (configlets : list string)
    (strict : bool) : M CvApiResult :=
  container_info <- get_container_info container ;;
  attach_configlets <- collect_configlets configlets [] ;;
  _configlet_add container_info attach_configlets true.

Definition configlets_detach (container : string) (configlets : list string)
    (strict : bool) : M CvApiResult :=
  container_info <- get_container_info container ;;
  detach_configlets <- collect_configlets configlets [] ;;
  _configlet_del container_info detach_configlets true.

End Tools.

(** [s.lower()] on ASCII text. *)
Definition ascii_lower (c : ascii) : ascii :=
  let n := nat_of_ascii c in
  if (65 <=? n)%nat && (n <=? 90)%nat then ascii_of_nat (n + 32)%nat else c.

Fixpoint str_lower (s : string) : string :=
  match s with
  | EmptyString => EmptyString
  | String c s' => String (ascii_lower c) (str_lower s')
  end.

(** [d[k] = v]: a key already present keeps its place. *)
Fixpoint dict_set (k : string) (v : pyval) (d : list (string * pyval))
    : list (string * pyval) :=
  match d with
  | [] => [(k, v)]
  | (k', v') :: d' =>
      if String.eqb k k' then (k, v) :: d' else (k', v') :: dict_set k v d'
  end.

(** [{k.lower(): v for k, v in source.items()}] *)
Definition lower_keys (source : pyval) : res (list (string * pyval)) :=
  match source with
  | PDict d =>
      Ok (fold_left (fun acc kv => dict_set (str_lower (fst kv)) (snd kv) acc)
            d [])
  | _ => Raise AttributeError
  end.

(** [for x in v]: the items of a list, the keys of a dict, the characters
    of a string. *)
Definition py_iter (v : pyval) : res (list pyval) :=
  match v with
  | PList l => Ok l
  | PDict d => Ok (map (fun kv => PStr (fst kv)) d)
  | PStr s => Ok (map (fun c => PStr (String c EmptyString))
                      (list_ascii_of_string s))
  | _ => Raise TypeError
  end.

(** [for x in items: result.append(self._standard_output(source=x))] *)
Fixpoint standard_outputs (items : list pyval) : res (list pyval) :=
  match items with
  | [] => Ok []
  | x :: rest =>
      y <-? _standard_output x ;;
      ys <-? standard_outputs rest ;;
      Ok (y :: ys)
  end.

(** [info] is the reply of
    [get_configlets_by_container_id(c_id=container_name)]. *)
Definition _get_attached_configlets (info : pyval) : res (list pyval) :=
  d <-? lower_keys info ;;
  l <-? py_getitem (PDict d) "configletList" ;;
  items <-? py_iter l ;;
  standard_outputs items.

(** [list_configlets] is the reply of [get_configlets()]. *)
Definition _get_all_configlets (list_configlets : pyval) : res (list pyval) :=
  d <-? lower_keys list_configlets ;;
  l <-? py_getitem (PDict d) "data" ;;
  items <-? py_iter l ;;
  standard_outputs items.

(** *** Helpers for the statements *)

(** An [add_container] call for [n] is in the history. *)
Definition added (n : string) (h : history) : bool :=
  existsb (fun x => match x with
                    | AddContainer n' _ _ => String.eqb n' n
                    | _ => false
                    end) h.

(** [m] issues no mutating call, from any history. *)
Definition no_mutation {A} (m : M A) : Prop :=
  forall h, exists calls, snd (m h) = (calls ++ h)%list
    /\ forallb (fun x => negb (mutating x)) calls = true.

(** Whenever [m] returns (raises nothing), its value satisfies [Q]. *)
Definition returns_with {A} (m : M A) (Q : A -> Prop) : Prop :=
  forall h, match fst (m h) with Ok a => Q a | Raise _ => True end.

(** The configlets that [get_configlet_by_name] resolves, in order, as
    filtered by [_standard_output]. *)
Definition resolved_batch (cfg : string -> pyval) (names : list string)
    : list pyval :=
  flat_map (fun n => match cfg n with
                     | PDict d => [PDict (std_filter d)]
                     | _ => []
                     end) names.

(** The value of the last key of [d] whose lower case is [k]. *)
Definition last_lower (k : string) (d : list (string * pyval)) : option pyval :=
  fold_left (fun o kv => if String.eqb k (str_lower (fst kv)) then Some (snd kv)
                         else o) d None.

(** [_standard_output] on a record known to be a dict. *)
Definition std_record (v : pyval) : pyval :=
  match v with PDict d => PDict (std_filter d) | _ => v end.

(** The changed flag of a returned result ([false] on an exception). *)
Definition changed_of (r : res CvApiResult) : bool :=
  match r with Ok cr => changed cr | Raise _ => false end.

(** *** Test servers *)

(** Every call raises [CvpApiError]. *)
Definition cv_error_registry : registry := fun _ _ => Raise CvpApiError.

(** Every call returns [None]. *)
Definition empty_registry : registry := fun _ _ => Ok PNone.

Definition mock_container (n : string) : pyval :=
  PDict [("key", PStr ("container_" ++ n)); ("name", PStr n)].

Definition mock_ok : pyval :=
  PDict [("data", PDict [("status", PStr "success"); ("taskIds", PList [])])].

(** A server holding the containers [initial] and those created since. *)
Definition mock_cv (initial : list string) : registry := fun h c =>
  match c with
  | GetContainerByName n =>
      if existsb (String.eqb n) initial || added n h
      then Ok (mock_container n) else Ok PNone
  | FilterTopology (PStr k) =>
      Ok (PDict [("topology", PDict [("key", PStr k); ("name", PStr k);
                                     ("childContainerCount", PInt 0);
                                     ("childNetElementCount", PInt 0)])])
  | FilterTopology _ => Ok PNone
  | GetConfigletByName _ => Ok PNone
  | _ => Ok mock_ok
  end.

(** A server holding the container ["DC1"] with one device attached. *)
Definition busy_registry : registry := fun h c =>
  match c with
  | GetContainerByName n =>
      if String.eqb n "DC1" then Ok (mock_container "DC1") else Ok PNone
  | FilterTopology _ =>
      Ok (PDict [("topology", PDict [("key", PStr "container_DC1");
                                     ("name", PStr "DC1");
                                     ("childContainerCount", PInt 0);
                                     ("childNetElementCount", PInt 1)])])
  | GetConfigletByName _ => Ok PNone
  | _ => Ok mock_ok
  end.

(** A server holding the empty containers [names]; it keeps no state. *)
Definition static_cv (names : list string) : registry := fun h c =>
  match c with
  | GetContainerByName n =>
      if existsb (String.eqb n) names then Ok (mock_container n) else Ok PNone
  | _ => mock_cv names h c
  end.

(** The server [base] where every mutating call raises [CvpApiError]. *)
Definition failing_mutations (base : registry) : registry := fun h c =>
  if mutating c then Raise CvpApiError else base h c.

End CvContainerTools.

Definition cont (parent : string) : pyval :=
  PDict [("parent_container", PStr parent)].


(** ** Properties of the topology orderer *)

Module OrdererFacts.
Import ContainerInput.

Lemma dict_lookup_not_key (k : string) (d : list (string * pyval)) :
  ~ In k (map fst d) -> dict_lookup k d = None.
Proof.
  induction d as [|[k' v] d IH]; simpl; intros Hn; [reflexivity|].
  destruct (String.eqb_spec k k') as [->|Hne].
  - exfalso. apply Hn. left. reflexivity.
  - apply IH. intros Hin. apply Hn. right. exact Hin.
Qed.

Lemma existsb_non_key (ci : t) (pd : string) (r : list string) :
  ~ In pd (keys ci) -> (forall x, In x r -> In x (keys ci)) ->
  existsb (fun element => py_eq_str (PStr pd) element) r = false.
Proof.
  intros Hpd Hr. apply Bool.not_true_iff_false. intros Hex.
  apply existsb_exists in Hex as [x [Hx Heq]]. simpl in Heq.
  apply String.eqb_eq in Heq. subst x. apply Hpd, Hr, Hx.
Qed.

Lemma placed_ok_app (ci : t) (d a : string) (r : list string) :
  placed_ok ci d r -> In a (keys ci) -> a <> d ->
  placed_ok ci d (r ++ [a])%list.
Proof.
  intros [Hk Hd] Ha Had. split.
  - intros x Hx. apply in_app_or in Hx as [Hx|[<-|[]]]; auto.
  - intros Hx. apply in_app_or in Hx as [Hx|[Hx|[]]]; auto.
Qed.

Lemma scan_keeps_dangling_out (ci : t) (d pd : string) :
  parent_of ci d = Ok (PStr pd) -> pd <> _root_name ci -> ~ In pd (keys ci) ->
  forall ks r r', (forall k, In k ks -> In k (keys ci)) ->
  placed_ok ci d r -> scan ci ks r = Ok r' -> placed_ok ci d r'.
Proof.
  intros Hd Hroot Hpd ks. induction ks as [|a ks IH]; simpl; intros r r' Hks Hr Hscan.
  - injection Hscan as <-. exact Hr.
  - assert (Ha : In a (keys ci)) by (apply Hks; left; reflexivity).
    destruct (parent_of ci a) as [p|e] eqn:Hpa; simpl in Hscan; [|discriminate].
    refine (IH _ _ (fun k Hk => Hks k (or_intror Hk)) _ Hscan).
    destruct (String.eqb_spec a d) as [->|Had].
    + rewrite Hd in Hpa. injection Hpa as <-.
      change (py_eq_str (PStr pd) (_root_name ci)) with (String.eqb pd (_root_name ci)).
      apply String.eqb_neq in Hroot. rewrite Hroot.
      rewrite (existsb_non_key ci pd r Hpd (proj1 Hr)). exact Hr.
    + assert (H1 : placed_ok ci d
                     (if py_eq_str p (_root_name ci) then (r ++ [a])%list else r))
        by (destruct (py_eq_str p (_root_name ci));
            [apply placed_ok_app|]; assumption).
      destruct (existsb _ _ && negb _); [apply placed_ok_app|]; assumption.
Qed.

Lemma loop_keeps_dangling_out (ci : t) (d pd : string) :
  parent_of ci d = Ok (PStr pd) -> pd <> _root_name ci -> ~ In pd (keys ci) ->
  forall fuel r l, placed_ok ci d r ->
  ordered_loop ci fuel r = Some (Ok l) -> placed_ok ci d l.
Proof.
  intros Hd Hroot Hpd fuel. induction fuel as [|fuel IH]; simpl; intros r l Hr Hl;
    destruct (Nat.ltb _ _).
  - discriminate.
  - injection Hl as <-. exact Hr.
  - destruct (scan ci (keys ci) r) as [r'|e] eqn:Hs; [|discriminate].
    apply (IH r'); [|exact Hl].
    exact (scan_keeps_dangling_out ci d pd Hd Hroot Hpd _ r r' (fun k Hk => Hk) Hr Hs).
  - injection Hl as <-. exact Hr.
Qed.

Lemma scan_without_root (ci : t) (ks : list string) :
  (forall k, In k ks -> exists s, parent_of ci k = Ok (PStr s) /\ s <> _root_name ci) ->
  scan ci ks [] = Ok [].
Proof.
  induction ks as [|a ks IH]; simpl; intros Hks; [reflexivity|].
  destruct (Hks a (or_introl eq_refl)) as [s [Hs Hne]].
  rewrite Hs. simpl. apply String.eqb_neq in Hne. rewrite Hne. simpl.
  apply IH. intros k Hk. apply Hks. right. exact Hk.
Qed.

Lemma loop_without_root (ci : t) :
  _topology ci <> [] ->
  (forall k, In k (keys ci) -> exists s, parent_of ci k = Ok (PStr s) /\ s <> _root_name ci) ->
  forall fuel, ordered_loop ci fuel [] = None.
Proof.
  intros Hne Hks fuel.
  assert (Hlt : Nat.ltb 0 (length (_topology ci)) = true).
  { destruct (_topology ci); [contradiction|reflexivity]. }
  induction fuel as [|fuel IH]; simpl ordered_loop; rewrite Hlt; [reflexivity|].
  rewrite (scan_without_root ci (keys ci) Hks). exact IH.
Qed.

End OrdererFacts.

Example ordered_tree :
  ContainerInput.ordered_list_containers
    (ContainerInput.init [("A", cont "Tenant"); ("B", cont "A");
                          ("C", cont "A"); ("D", cont "B")] "Tenant") 10
  = Some (Ok ["A"; "B"; "C"; "D"]).
Proof. reflexivity. Qed.

(** ** Claims about [ContainerInput] *)

Module ContainerInputClaims.
Import ContainerInput OrdererFacts.

(** C8: [ordered_list_containers] on the empty topology returns the empty
    list (the [while] condition is false at once, whatever the fuel). *)
Theorem ordered_list_containers_empty (root : string) (fuel : nat) :
  ordered_list_containers (init [] root) fuel = Some (Ok []).
Proof. destruct fuel; reflexivity. Qed.

(** C1 (failing input): root containers are appended on every pass without
    the [container not in result_list] test of the other branch.  For
    [{B: parent A, A: parent Tenant}] the result is [[A; B; A]], and for
    [{C: parent B, B: parent A, A: parent Tenant}] it is also [[A; B; A]]:
    [A] is repeated and [C] is missing. *)
Theorem ordered_list_containers_repeats_root :
  ordered_list_containers
    (init [("B", cont "A"); ("A", cont "Tenant")] "Tenant") 5
  = Some (Ok ["A"; "B"; "A"])
  /\ ordered_list_containers
       (init [("C", cont "B"); ("B", cont "A"); ("A", cont "Tenant")] "Tenant") 5
     = Some (Ok ["A"; "B"; "A"]).
Proof. split; reflexivity. Qed.

(** C2 (counterexample): on [{A: parent X}] the orderer never stops, and in
    particular never reports an error, whatever the number of passes. *)
Lemma ordered_list_containers_dangling_loops :
  ~ exists fuel r,
      ordered_list_containers (init [("A", cont "X")] "Tenant") fuel = Some r.
Proof.
  intros [fuel [r Hr]]. unfold ordered_list_containers in Hr.
  rewrite (loop_without_root (init [("A", cont "X")] "Tenant")) in Hr;
    [discriminate| discriminate |].
  intros k [<-|[]]. exists "X". split; [reflexivity| discriminate].
Qed.

(** C2 (amended): the orderer has no dangling-reference check.  A container
    whose parent is neither the root name nor a key is never placed in a
    returned list; and when no container has the root name as parent, no
    pass places anything and the loop runs for ever ([None] for every fuel). *)
Theorem ordered_list_containers_dangling (ci : t) :
  (forall d pd, parent_of ci d = Ok (PStr pd) -> pd <> _root_name ci ->
     ~ In pd (keys ci) ->
     forall fuel l, ordered_list_containers ci fuel = Some (Ok l) -> ~ In d l)
  /\ (_topology ci <> [] ->
      (forall k, In k (keys ci) ->
         exists s, parent_of ci k = Ok (PStr s) /\ s <> _root_name ci) ->
      forall fuel, ordered_list_containers ci fuel = None).
Proof.
  split.
  - intros d pd Hd Hroot Hpd fuel l Hl.
    refine (proj2 (loop_keeps_dangling_out ci d pd Hd Hroot Hpd fuel [] l _ Hl)).
    split; [intros x []| intros []].
  - intros Hne Hks fuel. exact (loop_without_root ci Hne Hks fuel).
Qed.

Lemma ordered_list_containers_dangling_witness :
  (forall fuel l,
     ordered_list_containers
       (init [("A", cont "Tenant"); ("B", cont "X")] "Tenant") fuel = Some (Ok l)
     -> ~ In "B" l)
  /\ (forall fuel,
        ordered_list_containers (init [("A", cont "X")] "Tenant") fuel = None).
Proof.
  split.
  - apply (proj1 (ordered_list_containers_dangling
                    (init [("A", cont "Tenant"); ("B", cont "X")] "Tenant"))
             "B" "X"); [reflexivity | discriminate |].
    simpl. intros [H|[H|[]]]; discriminate.
  - apply (proj2 (ordered_list_containers_dangling
                    (init [("A", cont "X")] "Tenant"))); [discriminate|].
    intros k [<-|[]]. exists "X". split; [reflexivity| discriminate].
Defined.

(** C9: [has_configlets] is true exactly when [get_configlets] returns a
    value other than [None] (an empty list counts as present), false exactly
    when it returns [None], and both give the absent answer for a name that
    is not a key of the topology. *)
Theorem has_configlets_matches_get_configlets (ci : t) (container_name key : string) :
  (has_configlets ci container_name key = Ok true <->
     exists v, get_configlets ci container_name key = Ok v /\ v <> PNone)
  /\ (has_configlets ci container_name key = Ok false <->
        get_configlets ci container_name key = Ok PNone)
  /\ (~ In container_name (keys ci) ->
      has_configlets ci container_name key = Ok false
      /\ get_configlets ci container_name key = Ok PNone).
Proof.
  assert (Habs : ~ In container_name (keys ci) ->
                 _get_container_data ci container_name key = Ok PNone).
  { intros Hn. unfold _get_container_data.
    rewrite dict_lookup_not_key by exact Hn. reflexivity. }
  unfold has_configlets, get_configlets.
  destruct (_get_container_data ci container_name key) as [v|e]; simpl.
  - destruct (is_none v) eqn:Hv.
    + destruct v; try discriminate Hv.
      split; [|split].
      * split; [discriminate|]. intros [w [Hw Hne]]. injection Hw as <-.
        contradiction.
      * split; reflexivity.
      * intros _. split; reflexivity.
    + assert (Hne : v <> PNone) by (intros ->; discriminate Hv).
      split; [|split].
      * split; [|reflexivity]. intros _. exists v. split; [reflexivity|exact Hne].
      * split; [discriminate|]. intros Hw. injection Hw as ->. contradiction.
      * intros Hn. specialize (Habs Hn). injection Habs as ->. contradiction.
  - split; [|split].
    + split; [discriminate|]. intros [w [Hw _]]. discriminate Hw.
    + split; discriminate.
    + intros Hn. specialize (Habs Hn). discriminate Habs.
Qed.

Lemma has_configlets_matches_get_configlets_witness :
  ContainerInput.has_configlets
    (init [("A", PDict [("parent_container", PStr "Tenant")])] "Tenant")
    "B" "configlets" = Ok false.
Proof.
  apply (proj2 (proj2 (has_configlets_matches_get_configlets
    (init [("A", PDict [("parent_container", PStr "Tenant")])] "Tenant")
    "B" "configlets"))).
  simpl. intros [H|[]]. discriminate.
Defined.

End ContainerInputClaims.

(** ** Effects of [CvContainerTools] *)

Module ToolsFacts.
Import CvContainerTools.

Create HintDb nomut.

Lemma nm_ret {A} (a : A) : no_mutation (ret a).
Proof. intros h. exists []. split; reflexivity. Qed.

Lemma nm_lift {A} (r : res A) : no_mutation (lift r).
Proof. intros h. exists []. split; reflexivity. Qed.

Lemma nm_raise {A} (e : exc) : no_mutation (@raise A e).
Proof. intros h. exists []. split; reflexivity. Qed.

Lemma nm_api (respond : registry) (c : call) :
  mutating c = false -> no_mutation (api respond c).
Proof. intros Hc h. exists [c]. simpl. rewrite Hc. split; reflexivity. Qed.

Lemma nm_bind {A B} (m : M A) (k : A -> M B) :
  no_mutation m -> (forall a, no_mutation (k a)) -> no_mutation (bind m k).
Proof.
  intros Hm Hk h. unfold bind. destruct (Hm h) as [c1 [H1 F1]].
  destruct (m h) as [[a|e] h1]; simpl in H1; subst h1.
  - destruct (Hk a (c1 ++ h)%list) as [c2 [H2 F2]]. exists (c2 ++ c1)%list.
    rewrite H2, app_assoc, forallb_app, F1, F2. split; reflexivity.
  - exists c1. split; [reflexivity|exact F1].
Qed.

Lemma nm_try {A} (m : M A) : no_mutation m -> no_mutation (try_api m).
Proof.
  intros Hm h. destruct (Hm h) as [c [H F]]. unfold try_api.
  destruct (m h) as [[a|[]] h1]; exists c; split; assumption.
Qed.

Ltac no_mut :=
  repeat (cbv zeta;
    lazymatch goal with
    | |- no_mutation (bind _ _) => apply nm_bind; [|intros ?]
    | |- no_mutation (ret _) => apply nm_ret
    | |- no_mutation (lift _) => apply nm_lift
    | |- no_mutation (raise _) => apply nm_raise
    | |- no_mutation (api _ _) => apply nm_api; reflexivity
    | |- no_mutation (try_api _) => apply nm_try
    | |- no_mutation (if true then ?a else _) => change (no_mutation a)
    | |- no_mutation (if false then _ else ?a) => change (no_mutation a)
    | |- no_mutation (if ?b then _ else _) => destruct b
    | |- no_mutation (match ?x with None => _ | Some _ => _ end) => destruct x
    | |- no_mutation _ => solve [eauto with nomut]
    end).

Lemma nm_status_success (resp : pyval) : no_mutation (status_success resp).
Proof. unfold status_success. no_mut. Qed.
#[local] Hint Resolve nm_status_success : nomut.

Lemma nm_task_ids (resp : pyval) : no_mutation (task_ids resp).
Proof. unfold task_ids. no_mut. Qed.
#[local] Hint Resolve nm_task_ids : nomut.

Lemma nm_configlet_response (resp : pyval) (cr : CvApiResult) :
  no_mutation (configlet_response resp cr).
Proof. unfold configlet_response. no_mut. Qed.
#[local] Hint Resolve nm_configlet_response : nomut.

Lemma nm_get_configlet_info respond (n : string) :
  no_mutation (_get_configlet_info respond n).
Proof. unfold _get_configlet_info. no_mut. Qed.
#[local] Hint Resolve nm_get_configlet_info : nomut.

Lemma nm_get_container_info respond (n : string) :
  no_mutation (get_container_info respond n).
Proof. unfold get_container_info. no_mut. Qed.
#[local] Hint Resolve nm_get_container_info : nomut.

Lemma nm_get_container_id respond (n : string) :
  no_mutation (get_container_id respond n).
Proof. unfold get_container_id. no_mut. Qed.
#[local] Hint Resolve nm_get_container_id : nomut.

Lemma nm_is_empty respond (n : string) : no_mutation (is_empty respond n).
Proof. unfold is_empty. no_mut. Qed.
#[local] Hint Resolve nm_is_empty : nomut.

Lemma nm_is_container_exists respond (n : string) :
  no_mutation (is_container_exists respond n).
Proof. unfold is_container_exists. no_mut. Qed.
#[local] Hint Resolve nm_is_container_exists : nomut.

Lemma nm_collect_configlets respond (names : list string) :
  forall acc, no_mutation (collect_configlets respond names acc).
Proof. induction names as [|n names IH]; intros acc; simpl; no_mut. Qed.
#[local] Hint Resolve nm_collect_configlets : nomut.

Lemma nm_configlet_add_check respond (container : pyval) (l : list pyval) (b : bool) :
  no_mutation (_configlet_add true respond container l b).
Proof. unfold _configlet_add. no_mut. Qed.
#[local] Hint Resolve nm_configlet_add_check : nomut.

Lemma nm_configlet_del_check respond (container : pyval) (l : list pyval) (b : bool) :
  no_mutation (_configlet_del true respond container l b).
Proof. unfold _configlet_del. no_mut. Qed.
#[local] Hint Resolve nm_configlet_del_check : nomut.

Lemma nm_create_check respond (c p : string) :
  no_mutation (create_container true respond c p).
Proof. unfold create_container. no_mut. Qed.

Lemma nm_delete_check respond (c p : string) :
  no_mutation (delete_container true respond c p).
Proof. unfold delete_container. no_mut. Qed.

Lemma nm_attach_check respond (c : string) (l : list string) (strict : bool) :
  no_mutation (configlets_attach true respond c l strict).
Proof. unfold configlets_attach. no_mut. Qed.

Lemma nm_detach_check respond (c : string) (l : list string) (strict : bool) :
  no_mutation (configlets_detach true respond c l strict).
Proof. unfold configlets_detach. no_mut. Qed.

Lemma rw_ret {A} (a : A) (Q : A -> Prop) : Q a -> returns_with (ret a) Q.
Proof. intros HQ h. exact HQ. Qed.

Lemma rw_raise {A} (e : exc) (Q : A -> Prop) : returns_with (raise e) Q.
Proof. intros h. exact I. Qed.

Lemma rw_bind {A B} (m : M A) (k : A -> M B) (Q : B -> Prop) :
  (forall a, returns_with (k a) Q) -> returns_with (bind m k) Q.
Proof.
  intros Hk h. unfold bind. destruct (m h) as [[a|e] h1]; [apply Hk|exact I].
Qed.

Ltac rw_tac :=
  repeat (cbv zeta;
    lazymatch goal with
    | |- returns_with (bind _ _) _ => apply rw_bind; intros ?
    | |- returns_with (ret _) _ => apply rw_ret
    | |- returns_with (raise _) _ => apply rw_raise
    | |- returns_with (if true then ?a else _) ?Q => change (returns_with a Q)
    | |- returns_with (if false then _ else ?a) ?Q => change (returns_with a Q)
    | |- returns_with (if ?b then _ else _) _ => destruct b
    | |- returns_with (match ?x with None => _ | Some _ => _ end) _ => destruct x
    end).

Lemma rw_create_check respond (c p : string) :
  returns_with (create_container true respond c p)
    (fun r => (success r = true /\ changed r = true) \/ r = new_result c).
Proof. unfold create_container. rw_tac; auto. Qed.

Lemma rw_delete_check respond (c p : string) :
  returns_with (delete_container true respond c p)
    (fun r => success r = true \/ r = new_result c).
Proof. unfold delete_container. rw_tac; auto. Qed.

Lemma rw_attach_check respond (c : string) (l : list string) (strict : bool) :
  returns_with (configlets_attach true respond c l strict)
    (fun r => success r = true \/ r = new_result "Undefined").
Proof. unfold configlets_attach, _configlet_add. rw_tac; auto. Qed.

Lemma rw_detach_check respond (c : string) (l : list string) (strict : bool) :
  returns_with (configlets_detach true respond c l strict)
    (fun r => success r = true).
Proof. unfold configlets_detach, _configlet_del. rw_tac; auto. Qed.

Lemma bind_ok {A B} (m : M A) (k : A -> M B) h a h' :
  m h = (Ok a, h') -> bind m k h = k a h'.
Proof. intros Hm. unfold bind. rewrite Hm. reflexivity. Qed.

Lemma std_filter_lookup (k : string) (d : list (string * pyval)) :
  existsb (String.eqb k) standard_keys = true ->
  dict_lookup k (std_filter d) = dict_lookup k d.
Proof.
  intros Hk. induction d as [|[k' v] d IH]; [reflexivity|].
  unfold std_filter in *. cbn [filter fst].
  destruct (String.eqb_spec k k') as [<-|Hne].
  - rewrite Hk. simpl. rewrite String.eqb_refl. reflexivity.
  - simpl dict_lookup at 2. apply String.eqb_neq in Hne. rewrite Hne.
    destruct (existsb (String.eqb k') standard_keys); [|exact IH].
    simpl. rewrite Hne. exact IH.
Qed.

(** A container CloudVision knows: [get_container_by_name] answers the
    record [crec] with key [kid], and [filter_topology] on [kid] answers the
    topology record [trec]. *)
Section Existing.

Variable respond : registry.
Variable c : string.
Variables crec ft trec : list (string * pyval).
Variable kid : pyval.
Hypothesis Hget : forall h, respond h (GetContainerByName c) = Ok (PDict crec).
Hypothesis Hkey : dict_lookup "key" crec = Some kid.
Hypothesis Hfilter : forall h, respond h (FilterTopology kid) = Ok (PDict ft).
Hypothesis Htopo : dict_lookup "topology" ft = Some (PDict trec).

Lemma exists_existing h :
  is_container_exists respond c h = (Ok true, GetContainerByName c :: h).
Proof. unfold is_container_exists, try_api, bind, api. rewrite Hget. reflexivity. Qed.

Lemma info_existing h :
  get_container_info respond c h
  = (Ok (PDict (std_filter trec)),
     FilterTopology kid :: GetContainerByName c :: GetContainerByName c :: h).
Proof.
  unfold get_container_info, bind, api, lift, ret, FIELD_KEY, FIELD_TOPOLOGY.
  rewrite !Hget. simpl. rewrite Hkey. simpl. rewrite Hget. simpl.
  rewrite Hkey. simpl. rewrite Hfilter. simpl. rewrite Htopo. reflexivity.
Qed.

Lemma is_empty_existing h :
  exists b, is_empty respond c h
            = (Ok b, FilterTopology kid :: GetContainerByName c
                     :: GetContainerByName c :: h)
    /\ (dict_lookup "childNetElementCount" trec = Some (PInt 1) -> b = false).
Proof.
  unfold is_empty. rewrite (bind_ok _ _ _ _ _ (info_existing h)).
  unfold bind, lift, ret, py_in, py_getitem,
    FIELD_COUNT_CONTAINERS, FIELD_COUNT_DEVICES.
  rewrite !std_filter_lookup by reflexivity.
  destruct (dict_lookup "childContainerCount" trec) as [vc|];
    [|eexists; split; [reflexivity| intros _; reflexivity]].
  destruct (dict_lookup "childNetElementCount" trec) as [vd|] eqn:Hd;
    [|eexists; split; [reflexivity| intros _; reflexivity]].
  destruct (py_eq_int vc 0); [|eexists; split; [reflexivity| intros _; reflexivity]].
  destruct (py_eq_int vd 0) eqn:E; eexists; split; try reflexivity;
    intros H; injection H as ->; try discriminate E; reflexivity.
Qed.

End Existing.

Lemma added_cons (c : string) (x : call) (h : history) :
  added c (x :: h)
  = (match x with AddContainer n _ _ => String.eqb n c | _ => false end)
    || added c h.
Proof. reflexivity. Qed.

(** Configlet lookups that answer [cfg n] for the name [n], either [None] or
    a record with a string name. *)
Section Configlets.

Variable respond : registry.
Variable cfg : string -> pyval.
Hypothesis Hcfg : forall h n, respond h (GetConfigletByName n) = Ok (cfg n).
Hypothesis Hshape : forall n, cfg n = PNone
  \/ exists d s, cfg n = PDict d /\ dict_lookup "name" d = Some (PStr s).

Lemma collect_resolved (names : list string) :
  forall acc h,
    collect_configlets respond names acc h
    = (Ok (acc ++ resolved_batch cfg names)%list,
       (rev (map GetConfigletByName names) ++ h)%list).
Proof.
  induction names as [|n names IH]; intros acc h.
  - simpl. rewrite app_nil_r. reflexivity.
  - cbn [collect_configlets]. unfold _get_configlet_info.
    unfold bind at 1. unfold bind at 1. unfold api. rewrite Hcfg.
    cbn [map rev resolved_batch flat_map].
    destruct (Hshape n) as [E|[d [s [E _]]]]; rewrite E; simpl.
    + rewrite IH, <- app_assoc. reflexivity.
    + unfold lift. simpl. rewrite IH, <- !app_assoc. reflexivity.
Qed.

Lemma names_resolved (names : list string) :
  exists ns, configlet_names (resolved_batch cfg names) = Ok ns
             /\ Forall (fun v => exists s, v = PStr s) ns.
Proof.
  induction names as [|n names [ns [Hns Hall]]].
  - exists []. split; [reflexivity| constructor].
  - unfold resolved_batch. cbn [flat_map]. fold (resolved_batch cfg names).
    destruct (Hshape n) as [E|[d [s [E Hn]]]]; rewrite E.
    + exists ns. split; assumption.
    + simpl app. cbn [configlet_names]. unfold py_get.
      rewrite std_filter_lookup by reflexivity. rewrite Hn. simpl.
      rewrite Hns. simpl.
      destruct (negb (String.eqb s "")); eexists; split; try reflexivity;
        [constructor; [eexists; reflexivity|]|]; exact Hall.
Qed.

End Configlets.

Lemma join_strings (sep : string) (l : list pyval) :
  Forall (fun v => exists s, v = PStr s) l -> exists j, py_join sep l = Ok j.
Proof.
  induction l as [|v l IH]; intros Hl; [exists ""; reflexivity|].
  inversion Hl as [|? ? [s ->] Hrest]; subst.
  destruct (IH Hrest) as [j Hj].
  destruct l as [|v' l']; [exists s; reflexivity|].
  exists (s ++ sep ++ j). change (py_join sep (PStr s :: v' :: l'))
    with (r <-? py_join sep (v' :: l') ;; Ok (s ++ sep ++ r)).
  rewrite Hj. reflexivity.
Qed.

Lemma resolved_batch_none (cfg : string -> pyval) (names : list string) :
  (forall n, In n names -> cfg n = PNone) -> resolved_batch cfg names = [].
Proof.
  unfold resolved_batch. induction names as [|n names IH]; intros Hnone;
    [reflexivity|].
  cbn [flat_map]. rewrite (Hnone n (or_introl eq_refl)).
  apply IH. intros m Hm. apply Hnone. right. exact Hm.
Qed.

End ToolsFacts.

(** ** Claims about [CvContainerTools] *)

Module ToolsClaims.
Import CvContainerTools ToolsFacts.

(** C3 (failing input): exceptions reach the caller.  When
    [get_container_by_name] raises [CvpApiError], [is_container_exists]
    catches it, then reads the unbound [cv_data] and raises
    [UnboundLocalError] (so does [create_container], which calls it first);
    and [configlets_detach] on a container CloudVision does not know calls
    [_configlet_del] with [None], whose [container['name']] raises
    [TypeError] ([_configlet_add] guards this case). *)
Theorem public_operations_raise :
  fst (is_container_exists cv_error_registry "DC1" []) = Raise UnboundLocalError
  /\ fst (create_container false cv_error_registry "DC2" "DC1" [])
     = Raise UnboundLocalError
  /\ fst (configlets_detach false empty_registry "DC1" ["cfg"] false [])
     = Raise TypeError.
Proof. repeat split; reflexivity. Qed.

(** C4 (counterexample): in check mode, [create_container] still issues
    three [get_container_by_name] calls. *)
Lemma check_mode_still_queries :
  create_container true (mock_cv ["DCs"]) "DC2" "DCs" []
  = (Ok (set_changed true (set_success true (new_result "DC2"))),
     [GetContainerByName "DC2"; GetContainerByName "DCs";
      GetContainerByName "DCs"]).
Proof. reflexivity. Qed.

(** C4 (amended): in check mode, [create_container], [delete_container],
    [configlets_attach] and [configlets_detach] issue no mutating call (no
    add, delete, apply or remove), whatever the server answers; they still
    issue lookups.  When they return, [create_container] reports
    success and changed or its initial result, [delete_container] success
    or its initial result, [configlets_attach] success or the initial
    result of its ["Undefined"] action (container not found), and
    [configlets_detach] success. *)
Theorem check_mode_no_mutating_call (respond : registry)
    (container parent : string) (configlets : list string) (strict : bool) :
  no_mutation (create_container true respond container parent)
  /\ returns_with (create_container true respond container parent)
       (fun r => (success r = true /\ changed r = true)
                 \/ r = new_result container)
  /\ no_mutation (delete_container true respond container parent)
  /\ returns_with (delete_container true respond container parent)
       (fun r => success r = true \/ r = new_result container)
  /\ no_mutation (configlets_attach true respond container configlets strict)
  /\ returns_with (configlets_attach true respond container configlets strict)
       (fun r => success r = true \/ r = new_result "Undefined")
  /\ no_mutation (configlets_detach true respond container configlets strict)
  /\ returns_with (configlets_detach true respond container configlets strict)
       (fun r => success r = true).
Proof.
  repeat split.
  all: first [ apply nm_create_check | apply rw_create_check
             | apply nm_delete_check | apply rw_delete_check
             | apply nm_attach_check | apply rw_attach_check
             | apply nm_detach_check | apply rw_detach_check ].
Qed.

(** C6: for a container whose topology record has [childNetElementCount]
    equal to 1, [delete_container] returns a result with success false and
    issues no delete call, in normal and in check mode. *)
Theorem delete_container_nonempty_noop (check_mode : bool) (respond : registry)
    (c p : string) (crec ft trec : list (string * pyval)) (kid : pyval)
    (h : history) :
  (forall h, respond h (GetContainerByName c) = Ok (PDict crec)) ->
  dict_lookup "key" crec = Some kid ->
  (forall h, respond h (FilterTopology kid) = Ok (PDict ft)) ->
  dict_lookup "topology" ft = Some (PDict trec) ->
  dict_lookup "childNetElementCount" trec = Some (PInt 1) ->
  exists r calls,
    delete_container check_mode respond c p h = (Ok r, (calls ++ h)%list)
    /\ success r = false
    /\ forallb (fun x => negb (is_delete x)) calls = true.
Proof.
  intros Hget Hkey Hfilter Htopo Hdev.
  destruct (is_empty_existing respond c crec ft trec kid Hget Hkey Hfilter Htopo
              (GetContainerByName c :: h)) as [b [Hb Hbf]].
  specialize (Hbf Hdev). subst b.
  unfold delete_container. cbv zeta.
  rewrite (bind_ok _ _ _ _ _ (exists_existing respond c crec Hget h)).
  cbv beta iota. rewrite (bind_ok _ _ _ _ _ Hb). cbv beta iota.
  exists (new_result c),
    [FilterTopology kid; GetContainerByName c; GetContainerByName c;
     GetContainerByName c].
  repeat split.
Qed.

Lemma delete_container_nonempty_noop_witness :
  exists r calls,
    delete_container false busy_registry "DC1" "Tenant" []
    = (Ok r, (calls ++ [])%list)
    /\ success r = false
    /\ forallb (fun x => negb (is_delete x)) calls = true.
Proof.
  apply (delete_container_nonempty_noop false busy_registry "DC1" "Tenant"
           [("key", PStr "container_DC1"); ("name", PStr "DC1")]
           [("topology", PDict [("key", PStr "container_DC1");
                                ("name", PStr "DC1");
                                ("childContainerCount", PInt 0);
                                ("childNetElementCount", PInt 1)])]
           [("key", PStr "container_DC1"); ("name", PStr "DC1");
            ("childContainerCount", PInt 0); ("childNetElementCount", PInt 1)]
           (PStr "container_DC1") []);
    try reflexivity; intros; reflexivity.
Defined.

(** C10: [is_empty] returns a boolean only for a container that exists.
    When [get_container_by_name] answers [None], [get_container_info]
    returns [None] and [is_empty] raises [TypeError] on its membership test,
    while [delete_container], which tests [is_container_exists] first,
    returns its initial result without calling [is_empty]; when the
    container exists, [is_empty] returns a boolean. *)
Theorem is_empty_needs_existing_container (respond : registry) (c : string) :
  ((forall h, respond h (GetContainerByName c) = Ok PNone) ->
   forall h,
     fst (get_container_info respond c h) = Ok PNone
     /\ fst (is_empty respond c h) = Raise TypeError
     /\ (forall check_mode p,
           delete_container check_mode respond c p h
           = (Ok (new_result c), GetContainerByName c :: h)))
  /\ (forall crec ft trec kid,
        (forall h, respond h (GetContainerByName c) = Ok (PDict crec)) ->
        dict_lookup "key" crec = Some kid ->
        (forall h, respond h (FilterTopology kid) = Ok (PDict ft)) ->
        dict_lookup "topology" ft = Some (PDict trec) ->
        forall h, exists b, fst (is_empty respond c h) = Ok b).
Proof.
  split.
  - intros Hnone h. repeat split.
    + unfold get_container_info, bind, api, ret. rewrite Hnone. reflexivity.
    + unfold is_empty, get_container_info, bind, api, ret, lift.
      rewrite Hnone. reflexivity.
    + intros check_mode p. unfold delete_container, is_container_exists,
        try_api, bind, api, ret. rewrite Hnone. reflexivity.
  - intros crec ft trec kid Hget Hkey Hfilter Htopo h.
    destruct (is_empty_existing respond c crec ft trec kid Hget Hkey Hfilter
                Htopo h) as [b [Hb _]].
    exists b. rewrite Hb. reflexivity.
Qed.

Lemma is_empty_needs_existing_container_witness :
  fst (is_empty empty_registry "DC9" []) = Raise TypeError
  /\ exists b, fst (is_empty busy_registry "DC1" []) = Ok b.
Proof.
  split.
  - apply (proj1 (is_empty_needs_existing_container empty_registry "DC9")
             (fun _ => eq_refl) []).
  - apply (proj2 (is_empty_needs_existing_container busy_registry "DC1")
             [("key", PStr "container_DC1"); ("name", PStr "DC1")]
             [("topology", PDict [("key", PStr "container_DC1");
                                  ("name", PStr "DC1");
                                  ("childContainerCount", PInt 0);
                                  ("childNetElementCount", PInt 1)])]
             [("key", PStr "container_DC1"); ("name", PStr "DC1");
              ("childContainerCount", PInt 0); ("childNetElementCount", PInt 1)]
             (PStr "container_DC1")); try reflexivity; intros; reflexivity.
Defined.

Ltac crunch_with rw := repeat (progress (rw; cbn -[added])).

(** C5 (counterexample): in check mode nothing is created, so a second
    [create_container] for the same name again reports changed. *)
Lemma create_container_check_mode_repeats :
  let h1 := snd (create_container true (mock_cv ["DCs"]) "DC2" "DCs" []) in
  changed_of (fst (create_container true (mock_cv ["DCs"]) "DC2" "DCs" [])) = true
  /\ changed_of (fst (create_container true (mock_cv ["DCs"]) "DC2" "DCs" h1)) = true.
Proof. split; reflexivity. Qed.

(** C5 (amended): in normal mode, with the parent known to CloudVision and
    a server whose [get_container_by_name] finds the container once it has
    been added, a first [create_container] issues one [add_container] call
    and returns success with count 1, and a second call for the same name
    issues no [add_container] call and returns success false and changed
    false.  In check mode both calls report changed. *)
Theorem create_container_idempotent (respond : registry) (c p : string)
    (prec crec resp dd : list (string * pyval)) (pk tids : pyval)
    (h0 : history) :
  (forall h, respond h (GetContainerByName p) = Ok (PDict prec)) ->
  dict_lookup "key" prec = Some pk ->
  (forall h, respond h (GetContainerByName c)
             = if added c h then Ok (PDict crec) else Ok PNone) ->
  (forall h, respond h (AddContainer c pk p) = Ok (PDict resp)) ->
  dict_lookup "data" resp = Some (PDict dd) ->
  dict_lookup "status" dd = Some (PStr "success") ->
  dict_lookup "taskIds" dd = Some tids ->
  added c h0 = false ->
  let h1 := AddContainer c pk p :: GetContainerByName c
            :: GetContainerByName p :: GetContainerByName p :: h0 in
  (exists r1, create_container false respond c p h0 = (Ok r1, h1)
              /\ success r1 = true /\ count r1 = 1)
  /\ (exists r2, create_container false respond c p h1
                 = (Ok r2, GetContainerByName c :: GetContainerByName p
                           :: GetContainerByName p :: h1)
                 /\ success r2 = false /\ changed r2 = false)
  /\ (exists r1 r2 h1' h2',
        create_container true respond c p h0 = (Ok r1, h1')
        /\ create_container true respond c p h1' = (Ok r2, h2')
        /\ changed r1 = true /\ changed r2 = true).
Proof.
  intros Hp Hkey Hc Hadd Hdata Hst Htids H0 h1.
  unfold h1, create_container, is_container_exists, try_api, bind, api, ret,
    lift, status_success, task_ids, FIELD_KEY.
  cbv zeta.
  split; [|split].
  - eexists; split; [crunch_with ltac:(rewrite ?Hp, ?Hadd, ?Hkey, ?Hdata,
      ?Hst, ?Htids, ?Hc, ?added_cons, ?H0, ?String.eqb_refl); reflexivity|].
    split; reflexivity.
  - eexists; split; [crunch_with ltac:(rewrite ?Hp, ?Hadd, ?Hkey, ?Hdata,
      ?Hst, ?Htids, ?Hc, ?added_cons, ?H0, ?String.eqb_refl); reflexivity|].
    split; reflexivity.
  - do 4 eexists. split; [crunch_with ltac:(rewrite ?Hp, ?Hkey, ?Hc,
      ?added_cons, ?H0); reflexivity|].
    split; [crunch_with ltac:(rewrite ?Hp, ?Hkey, ?Hc, ?added_cons, ?H0);
            reflexivity|].
    split; reflexivity.
Qed.

(** C7: [configlets_attach] looks every requested name up, puts exactly the
    resolved configlets, in order, in its single attach call, and reports
    success when CloudVision accepts that call; names that do not resolve
    are left out without any failure.  When no name resolves, the batch is
    empty, and the empty attach is reported as success (in check mode it
    is simulated and reported as success).  The container is one
    CloudVision knows. *)
Theorem configlets_attach_drops_unresolved (respond : registry) (c : string)
    (crec ft trec resp dd : list (string * pyval)) (kid tids : pyval)
    (cname : string) (cfg : string -> pyval) (configlets : list string) :
  (forall h, respond h (GetContainerByName c) = Ok (PDict crec)) ->
  dict_lookup "key" crec = Some kid ->
  (forall h, respond h (FilterTopology kid) = Ok (PDict ft)) ->
  dict_lookup "topology" ft = Some (PDict trec) ->
  dict_lookup "name" trec = Some (PStr cname) ->
  (forall h n, respond h (GetConfigletByName n) = Ok (cfg n)) ->
  (forall n, cfg n = PNone
     \/ exists d s, cfg n = PDict d /\ dict_lookup "name" d = Some (PStr s)) ->
  (forall h batch, respond h (ApplyConfigletsToContainer "ansible_cv_container"
                                batch (PDict (std_filter trec)) true)
                   = Ok (PDict resp)) ->
  dict_lookup "data" resp = Some (PDict dd) ->
  dict_lookup "status" dd = Some (PStr "success") ->
  dict_lookup "taskIds" dd = Some tids ->
  (forall strict h, exists r,
     configlets_attach false respond c configlets strict h
     = (Ok r, ApplyConfigletsToContainer "ansible_cv_container"
                (resolved_batch cfg configlets) (PDict (std_filter trec)) true
              :: (rev (map GetConfigletByName configlets)
                  ++ FilterTopology kid :: GetContainerByName c
                  :: GetContainerByName c :: h)%list)
     /\ success r = true)
  /\ (forall strict h, exists r,
        configlets_attach true respond c configlets strict h
        = (Ok r, (rev (map GetConfigletByName configlets)
                  ++ FilterTopology kid :: GetContainerByName c
                  :: GetContainerByName c :: h)%list)
        /\ success r = true)
  /\ ((forall n, In n configlets -> cfg n = PNone) ->
      resolved_batch cfg configlets = []).
Proof.
  intros Hget Hkey Hfilter Htopo Hname Hcfg Hshape Happly Hdata Hst Htids.
  destruct (names_resolved cfg Hshape configlets) as [ns [Hns Hall]].
  destruct (join_strings ":" ns Hall) as [j Hj].
  assert (Hrun : forall check_mode strict h,
    configlets_attach check_mode respond c configlets strict h
    = _configlet_add check_mode respond (PDict (std_filter trec))
        (resolved_batch cfg configlets) true
        (rev (map GetConfigletByName configlets)
         ++ FilterTopology kid :: GetContainerByName c
         :: GetContainerByName c :: h)%list).
  { intros check_mode strict h. unfold configlets_attach.
    rewrite (bind_ok _ _ _ _ _
               (info_existing respond c crec ft trec kid Hget Hkey Hfilter Htopo h)).
    rewrite (bind_ok _ _ _ _ _ (collect_resolved respond cfg Hcfg Hshape
                                  configlets [] _)).
    reflexivity. }
  split; [|split].
  - intros strict h. rewrite Hrun. eexists. split.
    + unfold _configlet_add, action_name, configlet_response, status_success,
        task_ids, try_api, bind, api, lift, ret.
      cbn -[configlet_names py_join std_filter resolved_batch].
      rewrite Hns. cbn -[py_join std_filter resolved_batch].
      rewrite std_filter_lookup by reflexivity. rewrite Hname.
      cbn -[py_join std_filter resolved_batch]. rewrite Hj.
      cbn -[std_filter resolved_batch]. rewrite Happly.
      cbn -[std_filter resolved_batch]. rewrite Hdata. cbn. rewrite Hst. cbn.
      rewrite Htids. reflexivity.
    + reflexivity.
  - intros strict h. rewrite Hrun. eexists. split.
    + unfold _configlet_add, action_name, bind, lift, ret.
      cbn -[configlet_names py_join std_filter resolved_batch].
      rewrite Hns. cbn -[py_join std_filter resolved_batch].
      rewrite std_filter_lookup by reflexivity. rewrite Hname.
      cbn -[py_join std_filter resolved_batch]. rewrite Hj. reflexivity.
    + reflexivity.
  - apply resolved_batch_none.
Qed.

Lemma create_container_idempotent_witness :
  (exists r1, create_container false (mock_cv ["DCs"]) "DC2" "DCs" []
     = (Ok r1, [AddContainer "DC2" (PStr "container_DCs") "DCs";
                GetContainerByName "DC2"; GetContainerByName "DCs";
                GetContainerByName "DCs"])
     /\ success r1 = true /\ count r1 = 1)
  /\ (exists r2, create_container false (mock_cv ["DCs"]) "DC2" "DCs"
          [AddContainer "DC2" (PStr "container_DCs") "DCs";
           GetContainerByName "DC2"; GetContainerByName "DCs";
           GetContainerByName "DCs"]
        = (Ok r2, [GetContainerByName "DC2"; GetContainerByName "DCs";
                   GetContainerByName "DCs";
                   AddContainer "DC2" (PStr "container_DCs") "DCs";
                   GetContainerByName "DC2"; GetContainerByName "DCs";
                   GetContainerByName "DCs"])
        /\ success r2 = false /\ changed r2 = false).
Proof.
  destruct (create_container_idempotent (mock_cv ["DCs"]) "DC2" "DCs"
     [("key", PStr "container_DCs"); ("name", PStr "DCs")]
     [("key", PStr "container_DC2"); ("name", PStr "DC2")]
     [("data", PDict [("status", PStr "success"); ("taskIds", PList [])])]
     [("status", PStr "success"); ("taskIds", PList [])]
     (PStr "container_DCs") (PList []) []
     (fun _ => eq_refl) eq_refl (fun _ => eq_refl) (fun _ => eq_refl)
     eq_refl eq_refl eq_refl eq_refl) as [H1 [H2 _]].
  split; [exact H1 | exact H2].
Defined.

(** C7: the test configlet [missing-name] of a known container. *)
Lemma configlets_attach_drops_unresolved_witness :
  exists r,
    configlets_attach false busy_registry "DC1" ["missing-name"] false []
    = (Ok r, [ApplyConfigletsToContainer "ansible_cv_container" []
                (PDict [("key", PStr "container_DC1"); ("name", PStr "DC1");
                        ("childContainerCount", PInt 0);
                        ("childNetElementCount", PInt 1)]) true;
              GetConfigletByName "missing-name";
              FilterTopology (PStr "container_DC1");
              GetContainerByName "DC1"; GetContainerByName "DC1"])
    /\ success r = true.
Proof.
  exact (proj1 (configlets_attach_drops_unresolved busy_registry "DC1"
    [("key", PStr "container_DC1"); ("name", PStr "DC1")]
    [("topology", PDict [("key", PStr "container_DC1"); ("name", PStr "DC1");
                         ("childContainerCount", PInt 0);
                         ("childNetElementCount", PInt 1)])]
    [("key", PStr "container_DC1"); ("name", PStr "DC1");
     ("childContainerCount", PInt 0); ("childNetElementCount", PInt 1)]
    [("data", PDict [("status", PStr "success"); ("taskIds", PList [])])]
    [("status", PStr "success"); ("taskIds", PList [])]
    (PStr "container_DC1") (PList []) "DC1" (fun _ => PNone) ["missing-name"]
    (fun _ => eq_refl) eq_refl (fun _ => eq_refl) eq_refl eq_refl
    (fun _ _ => eq_refl) (fun _ => or_introl eq_refl) (fun _ _ => eq_refl)
    eq_refl eq_refl eq_refl) false []).
Defined.

End ToolsClaims.

(** ** Further properties of [ContainerInput] *)

Module OrdererExtras.
Import ContainerInput.

Lemma existsb_string_in (c : string) (r : list string) :
  existsb (String.eqb c) r = true <-> In c r.
Proof.
  rewrite existsb_exists. split.
  - intros [x [Hx Heq]]. apply String.eqb_eq in Heq. subst x. exact Hx.
  - intros Hc. exists c. split; [exact Hc | apply String.eqb_refl].
Qed.

Lemma parents_first_app (ci : t) (r : list string) (x : string) (p : pyval) :
  parents_first ci r -> parent_of ci x = Ok p ->
  py_eq_str p (_root_name ci) = true
  \/ existsb (fun element => py_eq_str p element) r = true ->
  parents_first ci (r ++ [x])%list.
Proof.
  intros Hr Hx Hp i y Hy.
  destruct (Nat.lt_ge_cases i (length r)) as [Hi|Hi].
  - rewrite nth_error_app1 in Hy by exact Hi.
    destruct (Hr i y Hy) as [q [Hq [Hroot|[j [e [Hj [He Heq]]]]]]];
      exists q; split; auto.
    right. exists j, e. repeat split; [exact Hj| |exact Heq].
    rewrite nth_error_app1 by lia. exact He.
  - rewrite nth_error_app2 in Hy by exact Hi.
    destruct (i - length r) as [|k] eqn:Hk; [|destruct k; discriminate Hy].
    injection Hy as <-. exists p. split; [exact Hx|].
    destruct Hp as [Hroot|Hex]; [left; exact Hroot|right].
    apply existsb_exists in Hex as [e [He Heq]].
    apply In_nth_error in He as [j Hj].
    assert (Hjl : j < length r) by (apply nth_error_Some; congruence).
    exists j, e. repeat split; [lia| |exact Heq].
    rewrite nth_error_app1 by exact Hjl. exact Hj.
Qed.

Lemma nonroot_once_app (ci : t) (r : list string) (x : string) (p : pyval) :
  nonroot_once ci r -> parent_of ci x = Ok p ->
  py_eq_str p (_root_name ci) = true \/ ~ In x r ->
  nonroot_once ci (r ++ [x])%list.
Proof.
  intros Hr Hx Hp y q Hy Hq. rewrite count_occ_app. simpl.
  destruct (string_dec x y) as [<-|Hne].
  - rewrite Hx in Hy. injection Hy as <-.
    destruct Hp as [Hroot|Hnin]; [congruence|].
    rewrite (proj1 (count_occ_not_In string_dec r x) Hnin). lia.
  - specialize (Hr y q Hy Hq). lia.
Qed.

Lemma scan_invariants (ci : t) (ks : list string) :
  forall r r', scan ci ks r = Ok r' ->
    (parents_first ci r -> parents_first ci r')
    /\ (nonroot_once ci r -> nonroot_once ci r')
    /\ (forall x, In x r' -> In x r \/ In x ks).
Proof.
  induction ks as [|c ks IH]; simpl; intros r r' Hs.
  - injection Hs as <-. auto.
  - destruct (parent_of ci c) as [p|e] eqn:Hp; simpl in Hs; [|discriminate].
    destruct (IH _ _ Hs) as [IH1 [IH2 IH3]].
    set (r1 := if py_eq_str p (_root_name ci) then (r ++ [c])%list else r) in Hs.
    assert (Hr1 : (parents_first ci r -> parents_first ci r1)
                  /\ (nonroot_once ci r -> nonroot_once ci r1)
                  /\ (forall x, In x r1 -> In x r \/ x = c)).
    { unfold r1. destruct (py_eq_str p (_root_name ci)) eqn:Hroot.
      - split; [|split].
        + intros H. apply (parents_first_app ci r c p H Hp). left. exact Hroot.
        + intros H. apply (nonroot_once_app ci r c p H Hp). left. exact Hroot.
        + intros x Hx. apply in_app_or in Hx as [Hx|[<-|[]]]; auto.
      - auto. }
    destruct Hr1 as [H1 [H2 H3]].
    set (cond := existsb (fun element => py_eq_str p element) r1
                 && negb (existsb (String.eqb c) r1)) in Hs.
    assert (Hr2 : (parents_first ci r -> parents_first ci (if cond then (r1 ++ [c])%list else r1))
                  /\ (nonroot_once ci r -> nonroot_once ci (if cond then (r1 ++ [c])%list else r1))
                  /\ (forall x, In x (if cond then (r1 ++ [c])%list else r1) -> In x r \/ x = c)).
    { destruct cond eqn:Hcond; [|auto].
      apply andb_prop in Hcond as [Hex Hnin].
      apply negb_true_iff in Hnin.
      split; [|split].
      + intros H. apply (parents_first_app ci r1 c p (H1 H) Hp). right. exact Hex.
      + intros H. apply (nonroot_once_app ci r1 c p (H2 H) Hp). right.
        intros Hin. apply existsb_string_in in Hin. congruence.
      + intros x Hx. apply in_app_or in Hx as [Hx|[<-|[]]]; auto. }
    destruct Hr2 as [G1 [G2 G3]].
    split; [|split]; auto.
    intros x Hx. destruct (IH3 x Hx) as [Hx'|Hx']; [|right; right; exact Hx'].
    destruct (G3 x Hx') as [Hx''|<-]; [left; exact Hx''|right; left; reflexivity].
Qed.

Lemma loop_invariants (ci : t) (fuel : nat) :
  forall r l, ordered_loop ci fuel r = Some (Ok l) ->
    (parents_first ci r -> parents_first ci l)
    /\ (nonroot_once ci r -> nonroot_once ci l)
    /\ ((forall x, In x r -> In x (keys ci)) -> forall x, In x l -> In x (keys ci)).
Proof.
  induction fuel as [|fuel IH]; simpl; intros r l Hl;
    destruct (Nat.ltb _ _); try discriminate;
    try (injection Hl as <-; auto; fail).
  destruct (scan ci (keys ci) r) as [r'|e] eqn:Hs; [|discriminate].
  destruct (scan_invariants ci (keys ci) r r' Hs) as [S1 [S2 S3]].
  destruct (IH r' l Hl) as [L1 [L2 L3]].
  split; [|split]; auto.
  intros Hr. apply L3. intros x Hx. destruct (S3 x Hx); auto.
Qed.

Lemma scan_reads_parents (ci : t) (ks : list string) :
  forall r r', scan ci ks r = Ok r' ->
    forall k, In k ks -> exists v, parent_of ci k = Ok v.
Proof.
  induction ks as [|c ks IH]; simpl; intros r r' Hs k Hk; [destruct Hk|].
  destruct (parent_of ci c) as [p|e] eqn:Hp; simpl in Hs; [|discriminate].
  destruct Hk as [<-|Hk]; [exists p; exact Hp|].
  exact (IH _ _ Hs k Hk).
Qed.

Lemma scan_grows (ci : t) (ks : list string) :
  (forall k, In k ks -> exists v, parent_of ci k = Ok v) ->
  forall r, exists r', scan ci ks r = Ok r' /\ length r <= length r'
    /\ ((exists k p, In k ks /\ parent_of ci k = Ok p
                     /\ py_eq_str p (_root_name ci) = true) ->
        length r < length r').
Proof.
  induction ks as [|c ks IH]; simpl; intros Hks r.
  - exists r. split; [reflexivity|]. split; [lia|]. intros [k [p [[] _]]].
  - destruct (Hks c (or_introl eq_refl)) as [p Hp]. rewrite Hp. simpl.
    set (r1 := if py_eq_str p (_root_name ci) then (r ++ [c])%list else r).
    set (r2 := if existsb (fun element => py_eq_str p element) r1
                  && negb (existsb (String.eqb c) r1)
               then (r1 ++ [c])%list else r1).
    assert (L1 : length r <= length r1).
    { unfold r1. destruct (py_eq_str _ _); [rewrite length_app|]; lia. }
    assert (L1' : py_eq_str p (_root_name ci) = true -> length r < length r1).
    { unfold r1. intros ->. rewrite length_app. simpl. lia. }
    assert (L2 : length r1 <= length r2).
    { unfold r2. destruct (_ && _); [rewrite length_app|]; lia. }
    destruct (IH (fun k Hk => Hks k (or_intror Hk)) r2) as [r' [Hs [G1 G2]]].
    exists r'. split; [exact Hs|]. split; [lia|].
    intros [k [q [[<-|Hk] [Hq Hroot]]]].
    + rewrite Hp in Hq. injection Hq as <-. specialize (L1' Hroot). lia.
    + assert (length r2 < length r') by (apply G2; exists k, q; auto). lia.
Qed.

Lemma loop_terminates (ci : t) :
  (forall k, In k (keys ci) -> exists v, parent_of ci k = Ok v) ->
  (exists k p, In k (keys ci) /\ parent_of ci k = Ok p
               /\ py_eq_str p (_root_name ci) = true) ->
  forall fuel r, length (_topology ci) <= length r + fuel ->
    exists l, ordered_loop ci fuel r = Some (Ok l).
Proof.
  intros Hks Hroot fuel. induction fuel as [|fuel IH]; simpl; intros r Hlen;
    destruct (Nat.ltb_spec (length r) (length (_topology ci))) as [Hlt|Hge];
    try (exists r; reflexivity).
  - lia.
  - destruct (scan_grows ci (keys ci) Hks r) as [r' [Hs [_ Hgrow]]].
    rewrite Hs. apply IH. specialize (Hgrow Hroot). lia.
Qed.

Lemma firstn_length_app {A} (pre post : list A) :
  firstn (length pre) (pre ++ post) = pre.
Proof.
  rewrite firstn_app, Nat.sub_diag, firstn_all. simpl. apply app_nil_r.
Qed.

Lemma nth_error_length_app {A} (pre post : list A) (x : A) :
  nth_error (pre ++ x :: post) (length pre) = Some x.
Proof. rewrite nth_error_app2, Nat.sub_diag by lia. reflexivity. Qed.

Lemma scan_sorted (ci : t) :
  NoDup (keys ci) ->
  (forall i k, nth_error (keys ci) i = Some k ->
     exists p, parent_of ci k = Ok (PStr p)
               /\ (p = _root_name ci \/ In p (firstn i (keys ci)))) ->
  forall ks pre, keys ci = (pre ++ ks)%list -> scan ci ks pre = Ok (pre ++ ks)%list.
Proof.
  intros Hnd Hsorted ks. induction ks as [|c ks IH]; intros pre Hk.
  - rewrite app_nil_r. reflexivity.
  - destruct (Hsorted (length pre) c) as [p [Hp Hwhere]].
    { rewrite Hk. apply nth_error_length_app. }
    rewrite Hk, firstn_length_app in Hwhere.
    assert (Hnin : ~ In c pre).
    { rewrite Hk in Hnd. apply NoDup_remove_2 in Hnd.
      intros Hc. apply Hnd. apply in_or_app. left. exact Hc. }
    cbn [scan]. rewrite Hp. cbn [res_bind].
    change (py_eq_str (PStr p) (_root_name ci)) with (String.eqb p (_root_name ci)).
    assert (Hc : existsb (String.eqb c) (pre ++ [c]) = true).
    { apply existsb_string_in. apply in_or_app. right. left. reflexivity. }
    assert (Hc' : existsb (String.eqb c) pre = false).
    { apply not_true_iff_false. rewrite existsb_string_in. exact Hnin. }
    destruct (String.eqb_spec p (_root_name ci)) as [Hroot|Hroot].
    + rewrite Hc, andb_false_r.
      replace (pre ++ c :: ks)%list with ((pre ++ [c]) ++ ks)%list
        by (rewrite <- app_assoc; reflexivity).
      apply IH. rewrite <- app_assoc. exact Hk.
    + destruct Hwhere as [Hwhere|Hin]; [contradiction|].
      assert (Hp' : existsb (fun element => py_eq_str (PStr p) element) pre = true).
      { apply existsb_exists. exists p. split; [exact Hin|apply String.eqb_refl]. }
      rewrite Hp', Hc'. simpl.
      replace (pre ++ c :: ks)%list with ((pre ++ [c]) ++ ks)%list
        by (rewrite <- app_assoc; reflexivity).
      apply IH. rewrite <- app_assoc. exact Hk.
Qed.

(** X1: every container in a list returned by [ordered_list_containers] is
    a key of the topology, and its parent is either the root name or a
    container placed at an earlier position. *)
Theorem ordered_list_containers_parents_first (ci : t) (fuel : nat)
    (l : list string) :
  ordered_list_containers ci fuel = Some (Ok l) ->
  (forall x, In x l -> In x (keys ci))
  /\ forall i x, nth_error l i = Some x ->
       exists p, parent_of ci x = Ok p
         /\ (py_eq_str p (_root_name ci) = true
             \/ exists j e, j < i /\ nth_error l j = Some e /\ py_eq_str p e = true).
Proof.
  intros Hl. destruct (loop_invariants ci fuel [] l Hl) as [L1 [_ L3]].
  split.
  - apply L3. intros x [].
  - apply L1. intros i x Hx. destruct i; discriminate Hx.
Qed.

Lemma ordered_list_containers_parents_first_witness :
  (forall x, In x ["A"; "B"; "C"; "D"] ->
     In x (keys (init [("A", cont "Tenant"); ("B", cont "A");
                       ("C", cont "A"); ("D", cont "B")] "Tenant")))
  /\ forall i x, nth_error ["A"; "B"; "C"; "D"] i = Some x ->
       exists p, parent_of (init [("A", cont "Tenant"); ("B", cont "A");
                                  ("C", cont "A"); ("D", cont "B")] "Tenant") x = Ok p
         /\ (py_eq_str p "Tenant" = true
             \/ exists j e, j < i /\ nth_error ["A"; "B"; "C"; "D"] j = Some e
                            /\ py_eq_str p e = true).
Proof.
  apply (ordered_list_containers_parents_first
           (init [("A", cont "Tenant"); ("B", cont "A");
                  ("C", cont "A"); ("D", cont "B")] "Tenant") 10).
  reflexivity.
Defined.

(** X2: a container whose parent is not the root name occurs at most once
    in a list returned by [ordered_list_containers] (the repetition of C1
    only concerns containers placed under the root). *)
Theorem ordered_list_containers_nonroot_once (ci : t) (fuel : nat)
    (l : list string) (x : string) (p : pyval) :
  ordered_list_containers ci fuel = Some (Ok l) ->
  parent_of ci x = Ok p -> py_eq_str p (_root_name ci) = false ->
  count_occ string_dec l x <= 1.
Proof.
  intros Hl Hx Hp. destruct (loop_invariants ci fuel [] l Hl) as [_ [L2 _]].
  apply (L2 (fun y q _ _ => le_S _ _ (le_n 0)) x p Hx Hp).
Qed.

Lemma ordered_list_containers_nonroot_once_witness :
  count_occ string_dec ["A"; "B"; "A"] "B" <= 1.
Proof.
  apply (ordered_list_containers_nonroot_once
           (init [("B", cont "A"); ("A", cont "Tenant")] "Tenant") 5
           ["A"; "B"; "A"] "B" (PStr "A")); reflexivity.
Defined.

(** X3: when every container has a readable parent and at least one has
    the root name as parent, [ordered_list_containers] returns a list
    within as many passes as the topology has containers. *)
Theorem ordered_list_containers_terminates (ci : t) (fuel : nat) :
  (forall k, In k (keys ci) -> exists v, parent_of ci k = Ok v) ->
  (exists k p, In k (keys ci) /\ parent_of ci k = Ok p
               /\ py_eq_str p (_root_name ci) = true) ->
  length (_topology ci) <= fuel ->
  exists l, ordered_list_containers ci fuel = Some (Ok l).
Proof.
  intros Hks Hroot Hfuel. apply (loop_terminates ci Hks Hroot fuel []).
  simpl. exact Hfuel.
Qed.

Lemma ordered_list_containers_terminates_witness :
  exists l, ordered_list_containers
              (init [("C", cont "B"); ("B", cont "A"); ("A", cont "Tenant")]
                    "Tenant") 3 = Some (Ok l).
Proof.
  apply ordered_list_containers_terminates.
  - intros k [<-|[<-|[<-|[]]]]; eexists; reflexivity.
  - exists "A", (PStr "Tenant"). split; [right; right; left; reflexivity|].
    split; reflexivity.
  - simpl. lia.
Defined.

(** X4: when the keys are distinct and every container comes after its
    parent in the topology (or has the root name as parent), one pass places
    all of them and [ordered_list_containers] returns the keys in their
    order. *)
Theorem ordered_list_containers_sorted_input (ci : t) (fuel : nat) :
  NoDup (keys ci) ->
  (forall i k, nth_error (keys ci) i = Some k ->
     exists p, parent_of ci k = Ok (PStr p)
               /\ (p = _root_name ci \/ In p (firstn i (keys ci)))) ->
  ordered_list_containers ci (S fuel) = Some (Ok (keys ci)).
Proof.
  intros Hnd Hsorted. unfold ordered_list_containers. simpl ordered_loop.
  destruct (Nat.ltb 0 (length (_topology ci))) eqn:Hlt.
  - rewrite (scan_sorted ci Hnd Hsorted (keys ci) [] eq_refl). simpl app.
    assert (Hlen : Nat.ltb (length (keys ci)) (length (_topology ci)) = false).
    { unfold keys. rewrite length_map. apply Nat.ltb_irrefl. }
    destruct fuel; simpl; rewrite Hlen; reflexivity.
  - unfold keys. destruct (_topology ci); [reflexivity|discriminate].
Qed.

Lemma ordered_list_containers_sorted_input_witness :
  ordered_list_containers
    (init [("A", cont "Tenant"); ("B", cont "A"); ("C", cont "A");
           ("D", cont "B")] "Tenant") 1
  = Some (Ok ["A"; "B"; "C"; "D"]).
Proof.
  apply (ordered_list_containers_sorted_input
           (init [("A", cont "Tenant"); ("B", cont "A"); ("C", cont "A");
                  ("D", cont "B")] "Tenant") 0).
  - repeat constructor; simpl; intuition discriminate.
  - intros i k Hk.
    destruct i as [|[|[|[|i]]]]; simpl in Hk; try (destruct i; discriminate Hk);
      injection Hk as <-; eexists; (split; [reflexivity|]); simpl; auto.
Defined.

(** X5: when some container of the topology has no readable parent (no
    [parent_container] field, or a record that is not a dict), every pass
    raises, and [ordered_list_containers] raises after its first pass instead
    of returning a list. *)
Theorem ordered_list_containers_unreadable_parent (ci : t) (fuel : nat) :
  (exists k e, In k (keys ci) /\ parent_of ci k = Raise e) ->
  exists e, ordered_list_containers ci (S fuel) = Some (Raise e).
Proof.
  intros [k [e [Hk He]]].
  assert (Hlt : Nat.ltb 0 (length (_topology ci)) = true).
  { unfold keys in Hk. destruct (_topology ci); [destruct Hk|reflexivity]. }
  unfold ordered_list_containers. simpl ordered_loop. rewrite Hlt.
  destruct (scan ci (keys ci) []) as [r|e'] eqn:Hs.
  - destruct (scan_reads_parents ci (keys ci) [] r Hs k Hk) as [v Hv].
    congruence.
  - exists e'. reflexivity.
Qed.

Lemma ordered_list_containers_unreadable_parent_witness :
  exists e, ordered_list_containers
              (init [("A", cont "Tenant"); ("B", PDict [("configlets", PList [])])]
                    "Tenant") 4 = Some (Raise e).
Proof.
  apply ordered_list_containers_unreadable_parent.
  exists "B", KeyError. split; [right; left; reflexivity|reflexivity].
Defined.

(** X6: [get_parent] with the parent field gives the parent the orderer
    reads, and [None] where the orderer's read raises [KeyError] (a name
    that is not a key, or a record without the field).  For a container
    whose record is [None] (a YAML key with no body), [get_parent],
    [get_configlets] and [has_configlets] raise [TypeError], as the
    orderer's read does. *)
Theorem get_parent_matches_orderer (topology : list (string * pyval))
    (root n key : string) :
  (forall v, parent_of (init topology root) n = Ok v ->
     get_parent (init topology root) n "parent_container" = Ok v)
  /\ (parent_of (init topology root) n = Raise KeyError ->
      get_parent (init topology root) n "parent_container" = Ok PNone)
  /\ (dict_lookup n topology = Some PNone ->
      parent_of (init topology root) n = Raise TypeError
      /\ get_parent (init topology root) n key = Raise TypeError
      /\ get_configlets (init topology root) n key = Raise TypeError
      /\ has_configlets (init topology root) n key = Raise TypeError).
Proof.
  unfold parent_of, topo_getitem, get_parent, get_configlets, has_configlets,
    _get_container_data. simpl.
  destruct (dict_lookup n topology) as [rec|] eqn:Hn.
  - split; [|split].
    + intros v. destruct rec; simpl; try discriminate.
      destruct (dict_lookup "parent_container" d); [auto|discriminate].
    + destruct rec; simpl; try discriminate.
      destruct (dict_lookup "parent_container" d); [discriminate|reflexivity].
    + intros Hrec. injection Hrec as ->. repeat split.
  - split; [|split]; [discriminate|reflexivity|discriminate].
Qed.

Lemma get_parent_matches_orderer_witness :
  get_parent (init [("A", PDict [("configlets", PList [])]); ("B", PNone)] "Tenant")
    "A" "parent_container" = Ok PNone
  /\ has_configlets (init [("A", PDict [("configlets", PList [])]); ("B", PNone)] "Tenant")
       "B" "configlets" = Raise TypeError.
Proof.
  split.
  - apply (get_parent_matches_orderer
             [("A", PDict [("configlets", PList [])]); ("B", PNone)]
             "Tenant" "A" "configlets"). reflexivity.
  - apply (get_parent_matches_orderer
             [("A", PDict [("configlets", PList [])]); ("B", PNone)]
             "Tenant" "B" "configlets"). reflexivity.
Defined.

End OrdererExtras.

(** ** Further properties of [CvContainerTools] *)

Module ToolsExtras.
Import CvContainerTools ToolsFacts.

Lemma std_filter_lookup_other (k : string) (d : list (string * pyval)) :
  existsb (String.eqb k) standard_keys = false ->
  dict_lookup k (std_filter d) = None.
Proof.
  intros Hk. induction d as [|[k' v] d IH]; [reflexivity|].
  unfold std_filter in *. cbn [filter fst].
  destruct (existsb (String.eqb k') standard_keys) eqn:Hk'; [|exact IH].
  simpl. destruct (String.eqb_spec k k') as [<-|_]; [congruence|exact IH].
Qed.

Lemma std_filter_idem (d : list (string * pyval)) :
  std_filter (std_filter d) = std_filter d.
Proof.
  unfold std_filter. induction d as [|kv d IH]; [reflexivity|].
  cbn [filter]. destruct (existsb (String.eqb (fst kv)) standard_keys) eqn:E;
    [cbn [filter]; rewrite E, IH; reflexivity|exact IH].
Qed.

(** X7: [_standard_output] keeps exactly the entries of the five standard
    keys, with their values, and filtering its result again changes
    nothing; on a value that is not a dict it raises [AttributeError]
    ([source.items()]). *)
Theorem standard_output_keeps_standard_keys (source : pyval) :
  match source with
  | PDict d =>
      exists d', _standard_output source = Ok (PDict d')
        /\ (forall k, dict_lookup k d'
                      = if existsb (String.eqb k) standard_keys
                        then dict_lookup k d else None)
        /\ _standard_output (PDict d') = Ok (PDict d')
  | _ => _standard_output source = Raise AttributeError
  end.
Proof.
  destruct source as [| | | | |d]; try reflexivity.
  exists (std_filter d). split; [reflexivity|]. split.
  - intros k. destruct (existsb (String.eqb k) standard_keys) eqn:Hk.
    + apply std_filter_lookup. exact Hk.
    + apply std_filter_lookup_other. exact Hk.
  - simpl. rewrite std_filter_idem. reflexivity.
Qed.

Lemma ascii_lower_not_L (c : ascii) : ascii_lower c <> "L"%char.
Proof.
  destruct c as [[] [] [] [] [] [] [] []]; intros H; vm_compute in H;
    discriminate H.
Qed.

Lemma str_lower_no_L (s : string) :
  ~ In "L"%char (list_ascii_of_string (str_lower s)).
Proof.
  induction s as [|c s IH]; simpl; [tauto|].
  intros [H|H]; [exact (ascii_lower_not_L c H)|exact (IH H)].
Qed.

Lemma str_lower_not_configletList (s : string) :
  String.eqb "configletList" (str_lower s) = false.
Proof.
  apply String.eqb_neq. intros H. apply (str_lower_no_L s).
  rewrite <- H. simpl. tauto.
Qed.

Lemma dict_set_lookup (k k0 : string) (v : pyval) (d : list (string * pyval)) :
  dict_lookup k (dict_set k0 v d)
  = if String.eqb k k0 then Some v else dict_lookup k d.
Proof.
  induction d as [|[k' v'] d IH]; simpl; [reflexivity|].
  destruct (String.eqb_spec k0 k') as [<-|Hne]; simpl.
  - destruct (String.eqb k k0); reflexivity.
  - rewrite IH. destruct (String.eqb_spec k k0) as [->|_].
    + apply String.eqb_neq in Hne. rewrite Hne. reflexivity.
    + reflexivity.
Qed.

Lemma lower_keys_lookup (k : string) (d : list (string * pyval)) :
  forall acc o,
    dict_lookup k acc = o ->
    dict_lookup k (fold_left (fun acc kv => dict_set (str_lower (fst kv)) (snd kv) acc)
                     d acc)
    = fold_left (fun o kv => if String.eqb k (str_lower (fst kv)) then Some (snd kv)
                             else o) d o.
Proof.
  induction d as [|[k' v] d IH]; simpl; intros acc o Ho; [exact Ho|].
  apply IH. rewrite dict_set_lookup, Ho. reflexivity.
Qed.

Lemma lower_keys_last (k : string) (d : list (string * pyval)) :
  lower_keys (PDict d) = Ok (fold_left (fun acc kv => dict_set (str_lower (fst kv))
                                                       (snd kv) acc) d [])
  /\ dict_lookup k (fold_left (fun acc kv => dict_set (str_lower (fst kv)) (snd kv) acc)
                     d []) = last_lower k d.
Proof. split; [reflexivity|]. apply lower_keys_lookup. reflexivity. Qed.

Lemma last_lower_configletList (d : list (string * pyval)) :
  last_lower "configletList" d = None.
Proof.
  unfold last_lower. generalize (@None pyval) as o.
  induction d as [|[k v] d IH]; intros o; cbn [fold_left]; [reflexivity|].
  cbn [fst]. rewrite str_lower_not_configletList. apply IH.
Qed.

Lemma standard_outputs_dicts (l : list pyval) :
  (forall x, In x l -> exists e, x = PDict e) ->
  standard_outputs l = Ok (map std_record l).
Proof.
  induction l as [|x l IH]; intros Hl; [reflexivity|].
  destruct (Hl x (or_introl eq_refl)) as [e ->]. simpl.
  rewrite IH by (intros y Hy; apply Hl; right; exact Hy). reflexivity.
Qed.

(** X8: [_get_attached_configlets] lowers the keys of the reply and then
    reads ['configletList'], which has an upper-case letter, so it raises
    [KeyError] for every dict reply (and [AttributeError] for any other
    reply): it never returns a list. *)
Theorem _get_attached_configlets_always_raises (info : pyval) :
  _get_attached_configlets info
  = Raise (match info with PDict _ => KeyError | _ => AttributeError end).
Proof.
  destruct info as [| | | | |d]; try reflexivity.
  unfold _get_attached_configlets.
  destruct (lower_keys_last "configletList" d) as [-> Hl]. simpl.
  rewrite Hl, last_lower_configletList. reflexivity.
Qed.

(** X9: [_get_all_configlets] reads the entry whose key is ['data'] in any
    case (the last such key wins, as in the dict comprehension) and
    returns its configlets filtered by [_standard_output], in order; with
    no such key it raises [KeyError]. *)
Theorem _get_all_configlets_reads_data (d : list (string * pyval)) :
  (last_lower "data" d = None -> _get_all_configlets (PDict d) = Raise KeyError)
  /\ (forall l, last_lower "data" d = Some (PList l) ->
      (forall x, In x l -> exists e, x = PDict e) ->
      _get_all_configlets (PDict d) = Ok (map std_record l)).
Proof.
  unfold _get_all_configlets.
  destruct (lower_keys_last "data" d) as [-> Hl]. simpl. rewrite Hl.
  split.
  - intros ->. reflexivity.
  - intros l -> Hdicts. simpl. apply standard_outputs_dicts. exact Hdicts.
Qed.

Lemma _get_all_configlets_reads_data_witness :
  _get_all_configlets
    (PDict [("Data", PList [PDict [("key", PStr "configlet_1");
                                  ("name", PStr "leaf-base");
                                  ("config", PStr "hostname leaf1")]]);
            ("total", PInt 1)])
  = Ok [PDict [("key", PStr "configlet_1"); ("name", PStr "leaf-base")]]
  /\ _get_all_configlets (PDict [("configlets", PList [])]) = Raise KeyError.
Proof.
  split.
  - apply (proj2 (_get_all_configlets_reads_data
             [("Data", PList [PDict [("key", PStr "configlet_1");
                                     ("name", PStr "leaf-base");
                                     ("config", PStr "hostname leaf1")]]);
              ("total", PInt 1)])
             [PDict [("key", PStr "configlet_1"); ("name", PStr "leaf-base");
                     ("config", PStr "hostname leaf1")]]); [reflexivity|].
    intros x [<-|[]]. eexists. reflexivity.
  - apply (proj1 (_get_all_configlets_reads_data [("configlets", PList [])])).
    reflexivity.
Defined.

Ltac crunch rw := repeat (progress (rw; cbn -[added std_filter resolved_batch])).

Lemma get_container_id_existing (respond : registry) (n : string)
    (rec : list (string * pyval)) (k : pyval) (h : history) :
  respond h (GetContainerByName n) = Ok (PDict rec) ->
  dict_lookup "key" rec = Some k ->
  get_container_id respond n h = (Ok k, GetContainerByName n :: h).
Proof.
  intros Hn Hk. unfold get_container_id, bind, api, lift, ret, py_in,
    py_getitem, FIELD_KEY. rewrite Hn, Hk. reflexivity.
Qed.

Lemma is_empty_zero (respond : registry) (c : string)
    (crec ft trec : list (string * pyval)) (kid : pyval) (h : history) :
  (forall h, respond h (GetContainerByName c) = Ok (PDict crec)) ->
  dict_lookup "key" crec = Some kid ->
  (forall h, respond h (FilterTopology kid) = Ok (PDict ft)) ->
  dict_lookup "topology" ft = Some (PDict trec) ->
  dict_lookup "childContainerCount" trec = Some (PInt 0) ->
  dict_lookup "childNetElementCount" trec = Some (PInt 0) ->
  is_empty respond c h
  = (Ok true, FilterTopology kid :: GetContainerByName c
              :: GetContainerByName c :: h).
Proof.
  intros Hget Hkey Hfilter Htopo Hcc Hcd.
  unfold is_empty.
  rewrite (bind_ok _ _ _ _ _ (info_existing respond c crec ft trec kid Hget Hkey
                                Hfilter Htopo h)).
  unfold bind, lift, ret, py_in, py_getitem,
    FIELD_COUNT_CONTAINERS, FIELD_COUNT_DEVICES.
  rewrite !std_filter_lookup by reflexivity. rewrite Hcc, Hcd. reflexivity.
Qed.

Lemma info_none (respond : registry) (c : string) (h : history) :
  respond h (GetContainerByName c) = Ok PNone ->
  get_container_info respond c h = (Ok PNone, GetContainerByName c :: h).
Proof. intros Hc. unfold get_container_info, bind, api, ret. rewrite Hc. reflexivity. Qed.

(** X10: [create_container] under a parent that CloudVision does not know
    returns its initial result after a single lookup of the parent, in
    normal and in check mode. *)
Theorem create_container_missing_parent (check_mode : bool) (respond : registry)
    (c p : string) (h : history) :
  respond h (GetContainerByName p) = Ok PNone ->
  create_container check_mode respond c p h
  = (Ok (new_result c), GetContainerByName p :: h).
Proof.
  intros Hp. unfold create_container, is_container_exists, try_api, bind,
    api, ret. rewrite Hp. reflexivity.
Qed.

Lemma create_container_missing_parent_witness :
  create_container false (static_cv ["DC1"]) "DC2" "Tenant" []
  = (Ok (new_result "DC2"), [GetContainerByName "Tenant"]).
Proof. apply create_container_missing_parent. reflexivity. Defined.

(** X11: [create_container] for a container CloudVision already knows
    (any answer other than [None]) issues no [add_container] call and
    returns its initial result (success and changed false), in normal and
    in check mode. *)
Theorem create_container_existing_noop (check_mode : bool) (respond : registry)
    (c p : string) (prec : list (string * pyval)) (pk v : pyval) (h : history) :
  (forall h, respond h (GetContainerByName p) = Ok (PDict prec)) ->
  dict_lookup "key" prec = Some pk ->
  (forall h, respond h (GetContainerByName c) = Ok v) ->
  v <> PNone ->
  create_container check_mode respond c p h
  = (Ok (new_result c), GetContainerByName c :: GetContainerByName p
                        :: GetContainerByName p :: h).
Proof.
  intros Hp Hkey Hc Hv.
  unfold create_container, is_container_exists, try_api, bind, api, ret,
    lift, FIELD_KEY. cbv zeta.
  crunch ltac:(rewrite ?Hp, ?Hkey, ?Hc).
  destruct v; [contradiction|reflexivity..].
Qed.

Lemma create_container_existing_noop_witness :
  create_container true (static_cv ["DCs"; "DC2"]) "DC2" "DCs" []
  = (Ok (new_result "DC2"), [GetContainerByName "DC2"; GetContainerByName "DCs";
                             GetContainerByName "DCs"]).
Proof.
  apply (create_container_existing_noop true (static_cv ["DCs"; "DC2"]) "DC2" "DCs"
           [("key", PStr "container_DCs"); ("name", PStr "DCs")]
           (PStr "container_DCs") (mock_container "DC2") []);
    try reflexivity; try discriminate; intros; reflexivity.
Defined.

(** X12: in normal mode, for a new container under a known parent, a
    [CvpApiError] from [add_container] is caught and the initial result
    (success false, count 0) is returned, as it is for a reply whose status
    is not ["success"]; any other exception of [add_container] reaches the
    caller. *)
Theorem create_container_add_failure (respond : registry) (c p : string)
    (prec : list (string * pyval)) (pk : pyval) (h : history) :
  (forall h, respond h (GetContainerByName p) = Ok (PDict prec)) ->
  dict_lookup "key" prec = Some pk ->
  (forall h, respond h (GetContainerByName c) = Ok PNone) ->
  let h1 := AddContainer c pk p :: GetContainerByName c
            :: GetContainerByName p :: GetContainerByName p :: h in
  ((forall h, respond h (AddContainer c pk p) = Raise CvpApiError) ->
   create_container false respond c p h = (Ok (new_result c), h1))
  /\ (forall resp dd st,
        (forall h, respond h (AddContainer c pk p) = Ok (PDict resp)) ->
        dict_lookup "data" resp = Some (PDict dd) ->
        dict_lookup "status" dd = Some st -> py_eq_str st "success" = false ->
        create_container false respond c p h = (Ok (new_result c), h1))
  /\ (forall e, e <> CvpApiError ->
        (forall h, respond h (AddContainer c pk p) = Raise e) ->
        create_container false respond c p h = (Raise e, h1)).
Proof.
  intros Hp Hkey Hc h1. unfold h1.
  unfold create_container, is_container_exists, try_api, bind, api, ret,
    lift, status_success, FIELD_KEY. cbv zeta.
  split; [|split].
  - intros Hadd. crunch ltac:(rewrite ?Hp, ?Hkey, ?Hc, ?Hadd). reflexivity.
  - intros resp dd st Hadd Hdata Hst Hok.
    crunch ltac:(rewrite ?Hp, ?Hkey, ?Hc, ?Hadd, ?Hdata, ?Hst, ?Hok).
    reflexivity.
  - intros e He Hadd. crunch ltac:(rewrite ?Hp, ?Hkey, ?Hc, ?Hadd).
    destruct e; [contradiction|reflexivity..].
Qed.

Lemma create_container_add_failure_witness :
  create_container false (failing_mutations (static_cv ["DCs"])) "DC2" "DCs" []
  = (Ok (new_result "DC2"),
     [AddContainer "DC2" (PStr "container_DCs") "DCs"; GetContainerByName "DC2";
      GetContainerByName "DCs"; GetContainerByName "DCs"]).
Proof.
  apply (create_container_add_failure (failing_mutations (static_cv ["DCs"]))
           "DC2" "DCs" [("key", PStr "container_DCs"); ("name", PStr "DCs")]
           (PStr "container_DCs") []); try reflexivity; intros; reflexivity.
Defined.



(** X14: [delete_container] on an existing empty container whose parent
    CloudVision does not know raises [TypeError] ([get_container_id] tests
    ['key' in None]), in normal and in check mode, before any delete
    call. *)
Theorem delete_container_unknown_parent (check_mode : bool) (respond : registry)
    (c p : string) (crec ft trec : list (string * pyval)) (kid : pyval)
    (h : history) :
  (forall h, respond h (GetContainerByName c) = Ok (PDict crec)) ->
  dict_lookup "key" crec = Some kid ->
  (forall h, respond h (FilterTopology kid) = Ok (PDict ft)) ->
  dict_lookup "topology" ft = Some (PDict trec) ->
  dict_lookup "childContainerCount" trec = Some (PInt 0) ->
  dict_lookup "childNetElementCount" trec = Some (PInt 0) ->
  (forall h, respond h (GetContainerByName p) = Ok PNone) ->
  delete_container check_mode respond c p h
  = (Raise TypeError, GetContainerByName p :: FilterTopology kid
                      :: GetContainerByName c :: GetContainerByName c
                      :: GetContainerByName c :: h).
Proof.
  intros Hget Hkey Hfilter Htopo Hcc Hcd Hp.
  unfold delete_container. cbv zeta.
  rewrite (bind_ok _ _ _ _ _ (exists_existing respond c crec Hget h)).
  cbv beta iota.
  rewrite (bind_ok _ _ _ _ _ (is_empty_zero respond c crec ft trec kid _
                                Hget Hkey Hfilter Htopo Hcc Hcd)).
  unfold get_container_id, bind at 1, bind at 1, api, lift. rewrite Hp.
  reflexivity.
Qed.

Lemma delete_container_unknown_parent_witness :
  fst (delete_container true (static_cv ["DC1"]) "DC1" "Tenant" []) = Raise TypeError.
Proof.
  rewrite (delete_container_unknown_parent true (static_cv ["DC1"]) "DC1" "Tenant"
    [("key", PStr "container_DC1"); ("name", PStr "DC1")]
    [("topology", PDict [("key", PStr "container_DC1"); ("name", PStr "container_DC1");
                         ("childContainerCount", PInt 0);
                         ("childNetElementCount", PInt 0)])]
    [("key", PStr "container_DC1"); ("name", PStr "container_DC1");
     ("childContainerCount", PInt 0); ("childNetElementCount", PInt 0)]
    (PStr "container_DC1") []); try reflexivity; intros; reflexivity.
Defined.

Lemma configlets_existing_run (respond : registry) (c : string)
    (crec ft trec : list (string * pyval)) (kid : pyval)
    (cfg : string -> pyval) (configlets : list string) :
  (forall h, respond h (GetContainerByName c) = Ok (PDict crec)) ->
  dict_lookup "key" crec = Some kid ->
  (forall h, respond h (FilterTopology kid) = Ok (PDict ft)) ->
  dict_lookup "topology" ft = Some (PDict trec) ->
  (forall h n, respond h (GetConfigletByName n) = Ok (cfg n)) ->
  (forall n, cfg n = PNone
     \/ exists d s, cfg n = PDict d /\ dict_lookup "name" d = Some (PStr s)) ->
  forall check_mode strict h,
    let hc := (rev (map GetConfigletByName configlets)
               ++ FilterTopology kid :: GetContainerByName c
               :: GetContainerByName c :: h)%list in
    configlets_attach check_mode respond c configlets strict h
    = _configlet_add check_mode respond (PDict (std_filter trec))
        (resolved_batch cfg configlets) true hc
    /\ configlets_detach check_mode respond c configlets strict h
       = _configlet_del check_mode respond (PDict (std_filter trec))
           (resolved_batch cfg configlets) true hc.
Proof.
  intros Hget Hkey Hfilter Htopo Hcfg Hshape check_mode strict h hc.
  unfold configlets_attach, configlets_detach.
  rewrite !(bind_ok _ _ _ _ _
              (info_existing respond c crec ft trec kid Hget Hkey Hfilter Htopo h)).
  rewrite !(bind_ok _ _ _ _ _ (collect_resolved respond cfg Hcfg Hshape
                                 configlets [] _)).
  split; reflexivity.
Qed.



(** X16: [configlets_attach] on a container CloudVision does not know
    still looks every configlet up, then issues no attach call and returns
    the initial result of the ["Undefined"] action, in normal and in check
    mode. *)
Theorem configlets_attach_unknown_container (check_mode : bool)
    (respond : registry) (c : string) (cfg : string -> pyval)
    (configlets : list string) (strict : bool) (h : history) :
  (forall h, respond h (GetContainerByName c) = Ok PNone) ->
  (forall h n, respond h (GetConfigletByName n) = Ok (cfg n)) ->
  (forall n, cfg n = PNone
     \/ exists d s, cfg n = PDict d /\ dict_lookup "name" d = Some (PStr s)) ->
  configlets_attach check_mode respond c configlets strict h
  = (Ok (new_result "Undefined"),
     (rev (map GetConfigletByName configlets) ++ GetContainerByName c :: h)%list).
Proof.
  intros Hc Hcfg Hshape. unfold configlets_attach.
  rewrite (bind_ok _ _ _ _ _ (info_none respond c h (Hc h))).
  rewrite (bind_ok _ _ _ _ _ (collect_resolved respond cfg Hcfg Hshape
                                configlets [] _)).
  reflexivity.
Qed.

Lemma configlets_attach_unknown_container_witness :
  configlets_attach false empty_registry "DC9" ["cfg1"; "cfg2"] false []
  = (Ok (new_result "Undefined"),
     [GetConfigletByName "cfg2"; GetConfigletByName "cfg1"; GetContainerByName "DC9"]).
Proof.
  apply (configlets_attach_unknown_container false empty_registry "DC9"
           (fun _ => PNone)); [reflexivity|reflexivity|].
  intros n. left. reflexivity.
Defined.

(** X17: in normal mode, on a container CloudVision knows,
    [configlets_attach] reports failure (success false) without raising
    when the attach call raises [CvpApiError], when its reply has no
    ['data'] entry, and when the status of the reply is not
    ["success"]. *)
Theorem configlets_attach_failure_reported (respond : registry) (c : string)
    (crec ft trec : list (string * pyval)) (kid : pyval)
    (cname : string) (cfg : string -> pyval) (configlets : list string)
    (strict : bool) (h : history) :
  (forall h, respond h (GetContainerByName c) = Ok (PDict crec)) ->
  dict_lookup "key" crec = Some kid ->
  (forall h, respond h (FilterTopology kid) = Ok (PDict ft)) ->
  dict_lookup "topology" ft = Some (PDict trec) ->
  dict_lookup "name" trec = Some (PStr cname) ->
  (forall h n, respond h (GetConfigletByName n) = Ok (cfg n)) ->
  (forall n, cfg n = PNone
     \/ exists d s, cfg n = PDict d /\ dict_lookup "name" d = Some (PStr s)) ->
  let call := ApplyConfigletsToContainer "ansible_cv_container"
                (resolved_batch cfg configlets) (PDict (std_filter trec)) true in
  ((forall h, respond h call = Raise CvpApiError) ->
   exists r, fst (configlets_attach false respond c configlets strict h) = Ok r
             /\ success r = false)
  /\ (forall resp, (forall h, respond h call = Ok (PDict resp)) ->
       dict_lookup "data" resp = None ->
       exists r, fst (configlets_attach false respond c configlets strict h) = Ok r
                 /\ success r = false)
  /\ (forall resp dd st, (forall h, respond h call = Ok (PDict resp)) ->
       dict_lookup "data" resp = Some (PDict dd) ->
       dict_lookup "status" dd = Some st -> py_eq_str st "success" = false ->
       exists r, fst (configlets_attach false respond c configlets strict h) = Ok r
                 /\ success r = false).
Proof.
  intros Hget Hkey Hfilter Htopo Hname Hcfg Hshape call.
  destruct (names_resolved cfg Hshape configlets) as [ns [Hns Hall]].
  destruct (join_strings ":" ns Hall) as [j Hj].
  rewrite (proj1 (configlets_existing_run respond c crec ft trec kid cfg configlets
                    Hget Hkey Hfilter Htopo Hcfg Hshape false strict h)).
  unfold call.
  unfold _configlet_add, action_name, configlet_response, status_success,
    task_ids, try_api, bind, api, lift, ret, py_in.
  cbn -[configlet_names py_join std_filter resolved_batch].
  rewrite Hns. cbn -[py_join std_filter resolved_batch].
  rewrite std_filter_lookup by reflexivity. rewrite Hname.
  cbn -[py_join std_filter resolved_batch]. rewrite Hj.
  cbn -[std_filter resolved_batch].
  split; [|split].
  - intros Hap. rewrite Hap. eexists. split; reflexivity.
  - intros resp Hap Hdata. rewrite Hap. cbn -[std_filter resolved_batch].
    rewrite Hdata. eexists. split; reflexivity.
  - intros resp dd st Hap Hdata Hst Hok. rewrite Hap.
    cbn -[std_filter resolved_batch]. rewrite Hdata. cbn. rewrite Hst. cbn.
    rewrite Hok. eexists. split; reflexivity.
Qed.

Lemma configlets_attach_failure_reported_witness :
  exists r, fst (configlets_attach false (failing_mutations busy_registry) "DC1"
                   ["missing-name"] false []) = Ok r
            /\ success r = false.
Proof.
  apply (proj1 (configlets_attach_failure_reported (failing_mutations busy_registry)
    "DC1" [("key", PStr "container_DC1"); ("name", PStr "DC1")]
    [("topology", PDict [("key", PStr "container_DC1"); ("name", PStr "DC1");
                         ("childContainerCount", PInt 0);
                         ("childNetElementCount", PInt 1)])]
    [("key", PStr "container_DC1"); ("name", PStr "DC1");
     ("childContainerCount", PInt 0); ("childNetElementCount", PInt 1)]
    (PStr "container_DC1") "DC1" (fun _ => PNone) ["missing-name"] false []
    (fun _ => eq_refl) eq_refl (fun _ => eq_refl) eq_refl eq_refl
    (fun _ _ => eq_refl) (fun _ => or_introl eq_refl))).
  intros. reflexivity.
Defined.

(** X18: [get_container_id] raises [TypeError] when CloudVision answers
    [None] for the name (['key' in None]), returns [None] for a record
    without ['key'] (as [get_container_info] does, after one lookup), and
    the key otherwise, each after a single lookup. *)
Theorem container_lookups_by_name (respond : registry) (c : string) (h : history) :
  (respond h (GetContainerByName c) = Ok PNone ->
   get_container_id respond c h = (Raise TypeError, GetContainerByName c :: h))
  /\ (forall d, respond h (GetContainerByName c) = Ok (PDict d) ->
       dict_lookup "key" d = None ->
       get_container_id respond c h = (Ok PNone, GetContainerByName c :: h)
       /\ get_container_info respond c h = (Ok PNone, GetContainerByName c :: h))
  /\ (forall d k, respond h (GetContainerByName c) = Ok (PDict d) ->
       dict_lookup "key" d = Some k ->
       get_container_id respond c h = (Ok k, GetContainerByName c :: h)).
Proof.
  split; [|split].
  - intros Hc. unfold get_container_id, bind, api, lift. rewrite Hc. reflexivity.
  - intros d Hc Hk. unfold get_container_id, get_container_info, bind, api,
      lift, ret, py_in, FIELD_KEY. rewrite Hc. simpl. rewrite Hk.
    split; reflexivity.
  - intros d k Hc Hk. exact (get_container_id_existing respond c d k h Hc Hk).
Qed.

Lemma container_lookups_by_name_witness :
  get_container_id (static_cv ["DC1"]) "DC9" [] = (Raise TypeError, [GetContainerByName "DC9"])
  /\ get_container_id (static_cv ["DC1"]) "DC1" []
     = (Ok (PStr "container_DC1"), [GetContainerByName "DC1"]).
Proof.
  split.
  - apply (proj1 (container_lookups_by_name (static_cv ["DC1"]) "DC9" [])).
    reflexivity.
  - apply (proj2 (proj2 (container_lookups_by_name (static_cv ["DC1"]) "DC1" []))
             [("key", PStr "container_DC1"); ("name", PStr "DC1")]); reflexivity.
Defined.

(** X19: [is_container_exists] is true for every answer other than [None],
    an empty record included, and passes on every exception other than
    [CvpApiError]; so [create_container] under a parent whose record has no
    ['key'] raises [KeyError] on [parent['key']], in normal and in check
    mode. *)
Theorem is_container_exists_reply (respond : registry) (c : string) (h : history) :
  (forall v, respond h (GetContainerByName c) = Ok v ->
   is_container_exists respond c h = (Ok (negb (is_none v)), GetContainerByName c :: h))
  /\ (forall e, e <> CvpApiError -> respond h (GetContainerByName c) = Raise e ->
       is_container_exists respond c h = (Raise e, GetContainerByName c :: h))
  /\ (forall check_mode child d,
        (forall h, respond h (GetContainerByName c) = Ok (PDict d)) ->
        dict_lookup "key" d = None ->
        create_container check_mode respond child c h
        = (Raise KeyError, GetContainerByName c :: GetContainerByName c :: h)).
Proof.
  split; [|split].
  - intros v Hc. unfold is_container_exists, try_api, bind, api, ret.
    rewrite Hc. reflexivity.
  - intros e He Hc. unfold is_container_exists, try_api, bind, api, ret.
    rewrite Hc. destruct e; [contradiction|reflexivity..].
  - intros check_mode child d Hc Hk.
    unfold create_container, is_container_exists, try_api, bind, api, ret,
      lift, py_getitem, FIELD_KEY. cbv zeta. crunch ltac:(rewrite ?Hc, ?Hk).
    reflexivity.
Qed.

Lemma is_container_exists_reply_witness :
  create_container false (fun _ _ => Ok (PDict [])) "DC2" "DCs" []
  = (Raise KeyError, [GetContainerByName "DCs"; GetContainerByName "DCs"]).
Proof.
  apply (proj2 (proj2 (is_container_exists_reply (fun _ _ => Ok (PDict [])) "DCs" []))
           false "DC2" []); reflexivity.
Defined.

(** X20: [_get_configlet_info] answers [None] for an unknown configlet and
    the record filtered by [_standard_output] otherwise, after one lookup.
    An exception of the lookup, [CvpApiError] included, is not caught:
    [configlets_attach] and [configlets_detach] raise it. *)
Theorem get_configlet_info_reply (respond : registry) (n : string) (h : history) :
  (respond h (GetConfigletByName n) = Ok PNone ->
   _get_configlet_info respond n h = (Ok PNone, GetConfigletByName n :: h))
  /\ (forall d, respond h (GetConfigletByName n) = Ok (PDict d) ->
       _get_configlet_info respond n h
       = (Ok (PDict (std_filter d)), GetConfigletByName n :: h))
  /\ (forall e check_mode c v h' rest strict,
        (forall h, respond h (GetConfigletByName n) = Raise e) ->
        get_container_info respond c h = (Ok v, h') ->
        fst (configlets_attach check_mode respond c (n :: rest) strict h) = Raise e
        /\ fst (configlets_detach check_mode respond c (n :: rest) strict h) = Raise e).
Proof.
  split; [|split].
  - intros Hn. unfold _get_configlet_info, bind, api, ret. rewrite Hn. reflexivity.
  - intros d Hn. unfold _get_configlet_info, bind, api, lift. rewrite Hn. reflexivity.
  - intros e check_mode c v h' rest strict Hn Hinfo.
    unfold configlets_attach, configlets_detach.
    rewrite !(bind_ok _ _ _ _ _ Hinfo). cbn [collect_configlets].
    unfold _get_configlet_info, bind, api. rewrite Hn. split; reflexivity.
Qed.

Lemma get_configlet_info_reply_witness :
  fst (configlets_attach false
         (fun h x => match x with
                     | GetConfigletByName _ => Raise CvpApiError
                     | _ => empty_registry h x
                     end) "DC1" ["cfg1"] false [])
  = Raise CvpApiError
  /\ fst (configlets_detach false
            (fun h x => match x with
                        | GetConfigletByName _ => Raise CvpApiError
                        | _ => empty_registry h x
                        end) "DC1" ["cfg1"] false [])
     = Raise CvpApiError.
Proof.
  apply (proj2 (proj2 (get_configlet_info_reply
           (fun h x => match x with
                       | GetConfigletByName _ => Raise CvpApiError
                       | _ => empty_registry h x
                       end) "cfg1" []))
           CvpApiError false "DC1" PNone [GetContainerByName "DC1"] [] false);
    reflexivity.
Defined.

End ToolsExtras.
